(** * k12-iq-quiz: the quiz session state machine, scoring and dataset loader

    A shallow embedding of [src/App.tsx] (scoring, derived values and the
    action handlers of the [App] component) and of the dataset loader
    [loadDatasetFromPublicXlsx], with the properties the specification
    states about them.

    Conventions of the embedding:
    - a JavaScript string is a [string]; one [ascii] stands for one code unit
      in the range 0..255. Upper-casing leaves that range, so what
      [toUpperCase] returns is a list of code units;
    - timestamps ([Date.now()], [startedAt], [submittedAt]) are integers ([Z]);
    - a [Record<string, string>] is a [gmap string string];
    - React state is a record, and a handler is a function from the state the
      handler closed over to the state after its setters have been applied;
    - [window.confirm] is a function from the prompt to the user's choice, and
      a handler that asks also returns the prompts it raised;
    - [lib/storage], [types.ts] and the libraries ([xlsx], [fetch],
      [JSON.parse]) are not among the sources: storage is modelled from the
      specification, a fetched work book is an input, [JSON.parse] a
      parameter. *)

From Stdlib Require Import ZArith Ascii String List Bool Lia.
From Stdlib Require Import Floats.SpecFloat.
From stdpp Require Import gmap strings list fin_maps pretty.
Import ListNotations.

Local Open Scope string_scope.
Local Open Scope Z_scope.

(** ** JavaScript strings *)

Module JsString.

Definition code (c : ascii) : N := N_of_ascii c.

(** ECMAScript [WhiteSpace] and [LineTerminator] code units below 256:
    TAB, LF, VT, FF, CR, SPACE and NBSP. *)
Definition isWhiteSpace (c : ascii) : bool :=
  let n := code c in
  (((9 <=? n) && (n <=? 13)) || (n =? 32) || (n =? 160))%N.

(** [String.prototype.toUpperCase] on one code unit below 256, as the code
    units of the result: [a]..[z] and the Latin-1 small letters 224..254
    (without the division sign 247) go 32 down; the sharp s (223) becomes the
    two letters [SS]; the micro sign (181) becomes U+039C and the y with
    diaeresis (255) becomes U+0178; every other code unit is kept. *)
Definition toUpper (c : ascii) : list N :=
  let n := code c in
  (if (97 <=? n) && (n <=? 122) then [n - 32]
   else if n =? 181 then [924]
   else if n =? 223 then [83; 83]
   else if (224 <=? n) && (n <=? 254) && negb (n =? 247) then [n - 32]
   else if n =? 255 then [376]
   else [n])%N.

(** [String.prototype.toLowerCase] on one code unit below 256: [A]..[Z] and
    the Latin-1 capital letters 192..222 (without the multiplication sign
    215) go 32 up; every other code unit is kept. *)
Definition toLower (c : ascii) : ascii :=
  let n := code c in
  (if ((65 <=? n) && (n <=? 90)) || ((192 <=? n) && (n <=? 222) && negb (n =? 215))
   then ascii_of_N (n + 32) else c)%N.

Fixpoint trimStart (s : string) : string :=
  match s with
  | EmptyString => EmptyString
  | String c r => if isWhiteSpace c then trimStart r else s
  end.

Fixpoint trimEnd (s : string) : string :=
  match s with
  | EmptyString => EmptyString
  | String c r =>
      match trimEnd r with
      | EmptyString => if isWhiteSpace c then EmptyString else String c EmptyString
      | r' => String c r'
      end
  end.

(** [String.prototype.trim] *)
Definition trim (s : string) : string := trimEnd (trimStart s).

(** [String.prototype.toUpperCase], as the code units of the result. *)
Fixpoint toUpperCase (s : string) : list N :=
  match s with
  | EmptyString => []
  | String c r => toUpper c ++ toUpperCase r
  end.

(** [String.prototype.toLowerCase] *)
Fixpoint toLowerCase (s : string) : string :=
  match s with
  | EmptyString => EmptyString
  | String c r => String (toLower c) (toLowerCase r)
  end.

(** Truthiness of a string: only the empty string is falsy. *)
Definition truthy (s : string) : bool :=
  match s with EmptyString => false | String _ _ => true end.

(** Every code unit of [s] is white space (the empty string included). *)
Fixpoint blank (s : string) : bool :=
  match s with
  | EmptyString => true
  | String c r => isWhiteSpace c && blank r
  end.


End JsString.
Import JsString.

(** ** Data model ([types.ts]) *)

Inductive QuestionType := MultipleChoice | FillInTheBlank.

Inductive QuizView := ViewStart | ViewQuiz | ViewResult.

Record Question := {
  id : string;
  question : option string;
  chQuestion : option string;
  questionType : QuestionType;
  options : list string;
  chOptions : list string;
  answer : string;
  image : option string
}.

#[global] Instance QuizView_eq_dec : EqDecision QuizView.
Proof. solve_decision. Defined.

#[global] Instance QuestionType_eq_dec : EqDecision QuestionType.
Proof. solve_decision. Defined.

(** ** Scoring ([App.tsx], lines 11-23) *)

Definition normalizeChoice (s : string) : list N := toUpperCase (trim s).

Definition normalizeFill (s : string) : string := trim s.

Definition isCorrect (q : Question) (user : string) : bool :=
  if negb (truthy (trim user)) then false
  else match questionType q with
       | MultipleChoice => bool_decide (normalizeChoice user = normalizeChoice (answer q))
       | FillInTheBlank => String.eqb (normalizeFill user) (normalizeFill (answer q))
       end.


(** ** JavaScript numbers *)

Module JsNumber.

(** IEEE 754 binary64, through the Standard Library's [spec_float]. *)
Definition prec : Z := 53.
Definition emax : Z := 1024.

Definition Number := spec_float.

(** The Number for an integer (exact below 2^53). *)
Definition ofZ (z : Z) : Number := binary_normalize prec emax z 0 false.

Definition div (x y : Number) : Number := SFdiv prec emax x y.
Definition mul (x y : Number) : Number := SFmul prec emax x y.

(** [Math.round]: the integral Number closest to [x], ties towards
    +infinity; zeros, infinities, NaN and integral values are returned as
    they are, and a result of zero keeps the sign of [x]. *)
Definition Math_round (x : Number) : Number :=
  match x with
  | S754_finite s m e =>
      if 0 <=? e then x
      else
        let d := 2 ^ (- e) in
        let n := (2 * cond_Zopp s (Zpos m) + d) / (2 * d) in
        if n =? 0 then S754_zero s else binary_normalize prec emax n 0 false
  | _ => x
  end.

(** Truthiness of an optional number: [undefined] and [0] are falsy. *)
Definition truthy (o : option Z) : bool :=
  match o with
  | Some z => negb (z =? 0)
  | None => false
  end.

End JsNumber.

(** ** Persistence ([lib/storage]) *)

Module Storage.

(** Modelled from the spec: the metadata record of [lib/storage], which is
    not part of the sources at hand. Section 3 gives its fields:
    [{startedAt?, submittedAt?, view, currentId?, reviewId?}]. *)
Record Meta := {
  startedAt : option Z;
  submittedAt : option Z;
  view : QuizView;
  currentId : option string;
  reviewId : option string
}.

(** [Partial<Meta>]: [None] is a key that the object literal does not have. *)
Record PartialMeta := {
  p_startedAt : option Z;
  p_submittedAt : option Z;
  p_view : option QuizView;
  p_currentId : option string;
  p_reviewId : option string
}.

Definition no_fields : PartialMeta :=
  {| p_startedAt := None; p_submittedAt := None; p_view := None;
     p_currentId := None; p_reviewId := None |}.

(** The object spread [{ ...base, ...next }]. *)
Definition spread (base : Meta) (next : PartialMeta) : Meta :=
  {| startedAt := match p_startedAt next with Some t => Some t | None => startedAt base end;
     submittedAt := match p_submittedAt next with Some t => Some t | None => submittedAt base end;
     view := match p_view next with Some v => v | None => view base end;
     currentId := match p_currentId next with Some i => Some i | None => currentId base end;
     reviewId := match p_reviewId next with Some i => Some i | None => reviewId base end |}.

(** Modelled from the spec: the persisted key-value store behind
    [lib/storage] (section 6): one answer text per question id and one
    metadata record. *)
Record Store := {
  answerStore : gmap string string;
  metaStore : Meta
}.

(** Modelled from the spec: [getAnswer(id) -> string] of [lib/storage]; an
    id without an entry reads as the empty string (section 3, "default
    empty"). *)
Definition getAnswer (i : string) (st : Store) : string :=
  default "" (answerStore st !! i).

(** Modelled from the spec: [setAnswer(id, string) -> void] of
    [lib/storage], "per-question, keyed". *)
Definition setAnswer (i v : string) (st : Store) : Store :=
  {| answerStore := <[i := v]> (answerStore st); metaStore := metaStore st |}.

(** Modelled from the spec: [loadMeta() -> SessionMetadata] of
    [lib/storage]; fields that were never written are absent. *)
Definition loadMeta (st : Store) : Meta := metaStore st.

(** Modelled from the spec: [saveMeta(SessionMetadata) -> void] of
    [lib/storage], a "full overwrite of the record". *)
Definition saveMeta (m : Meta) (st : Store) : Store :=
  {| answerStore := answerStore st; metaStore := m |}.

(** Modelled from the spec: [clearAll(list of ids) -> void] of
    [lib/storage], which "resets all answers"; the metadata record holds no
    field derived from the answers and is left to the caller. *)
Definition clearAll (ids : list string) (st : Store) : Store :=
  foldl (fun st i => setAnswer i "" st) st ids.

End Storage.

(** ** The dataset loader ([lib/loadDataset]) *)

Module Loader.

(** Values of type [unknown] met by the loader: sheet cells and the results
    of [JSON.parse]. The loader only ever turns a number into a string, so a
    number is kept as the text [String(v)] gives for it; the members of an
    object play no part in the loader and are not kept. *)
#[local] Unset Elimination Schemes.
Inductive JsValue :=
| VUndefined
| VNull
| VBool (b : bool)
| VNumber (text : string)
| VString (s : string)
| VArray (elems : list JsValue)
| VObject.
#[local] Set Elimination Schemes.

Definition join (sep : string) (parts : list string) : string :=
  match parts with
  | [] => ""
  | p :: ps => foldl (fun acc x => acc ++ sep ++ x) p ps
  end.

(** The conversion [String(v)]. *)
Fixpoint String_ (v : JsValue) : string :=
  match v with
  | VUndefined => "undefined"
  | VNull => "null"
  | VBool true => "true"
  | VBool false => "false"
  | VNumber text => text
  | VString s => s
  | VArray elems =>
      join "," (map (fun x => match x with
                              | VUndefined | VNull => ""
                              | _ => String_ x
                              end) elems)
  | VObject => "[object Object]"
  end.

Definition asString (v : JsValue) : string :=
  match v with
  | VNull | VUndefined => ""
  | _ => String_ v
  end.

Definition normalizeType (raw : JsValue) : QuestionType :=
  let t := trim (asString raw) in
  if String.eqb t "Fill-in-the-blank" then FillInTheBlank else MultipleChoice.

(** A row of [sheet_to_json]: column header to cell. *)
Definition RawRow := gmap string JsValue.

(** The property access [row[key]]. *)
Definition cell (row : RawRow) (key : string) : JsValue :=
  default VUndefined (row !! key).

(** A work book as [XLSX.read] returns it; a sheet is kept as the rows that
    [XLSX.utils.sheet_to_json] makes of it. *)
Record Workbook := {
  SheetNames : list string;
  Sheets : gmap string (list RawRow)
}.

(** The body of a response: [Unreadable] when [res.arrayBuffer()] or
    [XLSX.read] throws an [Error] with that message. *)
Inductive Body :=
| Unreadable (msg : string)
| Readable (wb : Workbook).

Record Response := {
  ok : bool;
  status : Z;
  body : Body
}.

(** What [fetch] settles to. *)
Inductive Fetched :=
| Rejected (msg : string)
| Resolved (res : Response).

(** [s || undefined] *)
Definition orUndefined (s : string) : option string :=
  if truthy s then Some s else None.

Section WithJson.

(** [JSON.parse]; [None] when it throws. *)
Variable JSON_parse : string -> option JsValue.

Definition parseJsonArray (raw : JsValue) : list string :=
  let s := trim (asString raw) in
  if negb (truthy s) then []
  else match JSON_parse s with
       | Some (VArray parsed) => map asString parsed
       | Some _ => []
       | None => []
       end.

(** The body of the [for] loop: [None] for a row that is skipped. *)
Definition parseRow (row : RawRow) : option Question :=
  let i := trim (asString (cell row "id")) in
  if negb (truthy i) then None
  else
    Some {| id := i;
            question := orUndefined (trim (asString (cell row "Question")));
            chQuestion := orUndefined (trim (asString (cell row "Ch_Question")));
            questionType := normalizeType (cell row "Question_Type");
            options := parseJsonArray (cell row "Options");
            chOptions := parseJsonArray (cell row "Ch_Options");
            answer := trim (asString (cell row "Answer"));
            image := orUndefined (trim (asString (cell row "Image"))) |}.

Fixpoint parseRows (rows : list RawRow) : list Question :=
  match rows with
  | [] => []
  | row :: rest =>
      match parseRow row with
      | Some q => q :: parseRows rest
      | None => parseRows rest
      end
  end.

(** [inl msg] is the rejection of the promise with [Error(msg)], [inr qs]
    its fulfilment. *)
Definition loadDatasetFromPublicXlsx (net : Fetched) : string + list Question :=
  match net with
  | Rejected msg => inl msg
  | Resolved res =>
      if negb (ok res)
      then inl ("Failed to fetch /dataset.xlsx (" ++ pretty (status res) ++ ")")
      else
        match body res with
        | Unreadable msg => inl msg
        | Readable wb =>
            match SheetNames wb with
            | [] => inl "dataset.xlsx has no sheets"
            | sheetName :: _ =>
                if negb (truthy sheetName) then inl "dataset.xlsx has no sheets"
                else
                  match Sheets wb !! sheetName with
                  | None => inl "dataset.xlsx first sheet is missing"
                  | Some rows =>
                      let questions := parseRows rows in
                      if (List.length questions =? 0)%nat
                      then inl "No questions parsed from dataset.xlsx"
                      else inr questions
                  end
            end
        end
  end.

End WithJson.

End Loader.

(** ** The [App] component ([App.tsx]) *)

Module App.

Import Storage.

(** The [useState] cells of the component. *)
Record State := {
  questions : option (list Question);
  error : string;
  view : QuizView;
  currentId : string;
  reviewId : string;
  answers : gmap string string;
  zoomSrc : option string;
  now : Z
}.

(** The component together with the browser's local storage. *)
Record World := {
  ui : State;
  disk : Store
}.

(** What [window.confirm] is asked: the submit warning carries the number of
    unanswered questions spliced into its text, the clear warning is a
    fixed text. *)
Inductive Prompt :=
| ConfirmSubmit (unanswered : nat)
| ConfirmClear.

Definition setQuestions (qs : list Question) (s : State) : State :=
  {| questions := Some qs; error := error s; view := view s;
     currentId := currentId s; reviewId := reviewId s; answers := answers s;
     zoomSrc := zoomSrc s; now := now s |}.

Definition setError (e : string) (s : State) : State :=
  {| questions := questions s; error := e; view := view s;
     currentId := currentId s; reviewId := reviewId s; answers := answers s;
     zoomSrc := zoomSrc s; now := now s |}.

Definition setView (v : QuizView) (s : State) : State :=
  {| questions := questions s; error := error s; view := v;
     currentId := currentId s; reviewId := reviewId s; answers := answers s;
     zoomSrc := zoomSrc s; now := now s |}.

Definition setCurrentId (i : string) (s : State) : State :=
  {| questions := questions s; error := error s; view := view s;
     currentId := i; reviewId := reviewId s; answers := answers s;
     zoomSrc := zoomSrc s; now := now s |}.

Definition setReviewId (i : string) (s : State) : State :=
  {| questions := questions s; error := error s; view := view s;
     currentId := currentId s; reviewId := i; answers := answers s;
     zoomSrc := zoomSrc s; now := now s |}.

Definition setAnswers (a : gmap string string) (s : State) : State :=
  {| questions := questions s; error := error s; view := view s;
     currentId := currentId s; reviewId := reviewId s; answers := a;
     zoomSrc := zoomSrc s; now := now s |}.

Definition setNow (t : Z) (s : State) : State :=
  {| questions := questions s; error := error s; view := view s;
     currentId := currentId s; reviewId := reviewId s; answers := answers s;
     zoomSrc := zoomSrc s; now := t |}.

(** The state of the first render. *)
Definition initial (t : Z) : State :=
  {| questions := None; error := ""; view := ViewStart; currentId := "";
     reviewId := ""; answers := ∅; zoomSrc := None; now := t |}.

(** [answers[id] ?? ''] *)
Definition answerOf (a : gmap string string) (i : string) : string :=
  default "" (a !! i).

(** [qs.some((x) => x.id === i)] *)
Definition hasId (qs : list Question) (i : string) : bool :=
  existsb (fun x => String.eqb (id x) i) qs.

(** [p && qs.some((x) => x.id === p) ? p : fallback] for a persisted
    pointer [p]. *)
Definition resolveId (qs : list Question) (p : option string) (fallback : string) : string :=
  match p with
  | Some i => if JsString.truthy i && hasId qs i then i else fallback
  | None => fallback
  end.

(** *** The dataset-ready effect (lines 41-62) *)

Definition desiredView (meta : Meta) : QuizView :=
  let started := startedAt meta in
  let submitted := submittedAt meta in
  if bool_decide (Storage.view meta = ViewResult) && JsNumber.truthy submitted then ViewResult
  else if bool_decide (Storage.view meta = ViewQuiz) && JsNumber.truthy started then ViewQuiz
  else ViewStart.

Definition datasetReady (qs : list Question) (w : World) : World :=
  let init := foldl (fun init q => <[id q := getAnswer (id q) (disk w)]> init) ∅ qs in
  let meta := loadMeta (disk w) in
  let fallbackId := match qs with q :: _ => id q | [] => "" end in
  let cId := resolveId qs (Storage.currentId meta) fallbackId in
  let rId := resolveId qs (Storage.reviewId meta) cId in
  {| ui := setReviewId rId (setCurrentId cId (setView (desiredView meta)
             (setAnswers init (setQuestions qs (ui w)))));
     disk := disk w |}.

(** The mount effect: the loader's promise, then either branch. *)
Definition mounted (loaded : string + list Question) (w : World) : World :=
  match loaded with
  | inr qs => datasetReady qs w
  | inl msg => {| ui := setError msg (ui w); disk := disk w |}
  end.

(** The timer tick. *)
Definition tick (t : Z) (w : World) : World :=
  {| ui := setNow t (ui w); disk := disk w |}.

(** *** Derived values (lines 75-115, 372) *)

Definition answeredCount (s : State) : nat :=
  match questions s with
  | None => 0%nat
  | Some qs =>
      foldl (fun c q => if JsString.truthy (trim (answerOf (answers s) (id q)))
                        then S c else c) 0%nat qs
  end.

Definition elapsedMs (startedAt submittedAt : option Z) (view : QuizView) (now : Z) : Z :=
  if negb (JsNumber.truthy startedAt) then 0
  else if bool_decide (view = ViewResult) && JsNumber.truthy submittedAt
       then Z.max 0 (default 0 submittedAt - default 0 startedAt)
       else Z.max 0 (now - default 0 startedAt).

(** [elapsedMs] on the metadata the component reads from storage (the
    [useMemo] over [loadMeta()], refreshed whenever the view or a pointer
    changes). *)
Definition elapsed (w : World) : Z :=
  let meta := loadMeta (disk w) in
  elapsedMs (startedAt meta) (submittedAt meta) (view (ui w)) (now (ui w)).

Record Score := { correct : nat; total : nat }.

Definition score (s : State) : Score :=
  match questions s with
  | None => {| correct := 0; total := 0 |}
  | Some qs =>
      {| correct := foldl (fun correct q =>
                             if isCorrect q (answerOf (answers s) (id q))
                             then S correct else correct) 0%nat qs;
         total := List.length qs |}
  end.

Definition percent (sc : Score) : JsNumber.Number :=
  if (total sc =? 0)%nat then JsNumber.ofZ 0
  else JsNumber.div
         (JsNumber.Math_round
            (JsNumber.mul (JsNumber.div (JsNumber.ofZ (Z.of_nat (correct sc)))
                                        (JsNumber.ofZ (Z.of_nat (total sc))))
                          (JsNumber.ofZ 1000)))
         (JsNumber.ofZ 10).

(** *** Action handlers (lines 117-196)

    A handler that reads [questions[0].id] on an empty list throws; that is
    [None]. Every reading of [Date.now()] is a parameter. *)

Definition persistMeta (next : PartialMeta) (st : Store) : Store :=
  let base := loadMeta st in
  saveMeta (spread base next) st.

Definition startNew (t : Z) (w : World) : option World :=
  match questions (ui w) with
  | None => Some w
  | Some qs =>
      let st1 := clearAll (map id qs) (disk w) in
      let startedAt := t in
      match qs with
      | [] => None
      | q0 :: _ =>
          let st2 := saveMeta {| Storage.startedAt := Some startedAt;
                                 Storage.submittedAt := None;
                                 Storage.view := ViewQuiz;
                                 Storage.currentId := Some (id q0);
                                 Storage.reviewId := Some (id q0) |} st1 in
          let init := foldl (fun init q => <[id q := ""]> init) ∅ qs in
          Some {| ui := setView ViewQuiz (setReviewId (id q0) (setCurrentId (id q0)
                          (setAnswers init (ui w))));
                  disk := st2 |}
      end
  end.

Definition continueQuiz (t : Z) (w : World) : option World :=
  match questions (ui w) with
  | None => Some w
  | Some qs =>
      let m := loadMeta (disk w) in
      let startedAt := match Storage.startedAt m with Some s => s | None => t end in
      match qs with
      | [] => None
      | q0 :: _ =>
          let fallback := id q0 in
          let cId := resolveId qs (Storage.currentId m) fallback in
          let st := persistMeta {| p_startedAt := Some startedAt; p_submittedAt := None;
                                   p_view := Some ViewQuiz; p_currentId := Some cId;
                                   p_reviewId := None |} (disk w) in
          Some {| ui := setView ViewQuiz (setCurrentId cId (ui w)); disk := st |}
      end
  end.

Definition goResult (t1 t2 : Z) (w : World) : option World :=
  match questions (ui w) with
  | None => Some w
  | Some qs =>
      let m := loadMeta (disk w) in
      let startedAt := match Storage.startedAt m with Some s => s | None => t1 end in
      let submittedAt := match Storage.submittedAt m with Some s => s | None => t2 end in
      match qs with
      | [] => None
      | q0 :: _ =>
          let fallback := id q0 in
          let rId := resolveId qs (Storage.reviewId m) fallback in
          let st := saveMeta (spread m {| p_startedAt := Some startedAt;
                                          p_submittedAt := Some submittedAt;
                                          p_view := Some ViewResult;
                                          p_currentId := None;
                                          p_reviewId := Some rId |}) (disk w) in
          Some {| ui := setView ViewResult (setReviewId rId (ui w)); disk := st |}
      end
  end.

Definition updateAnswer (i v : string) (w : World) : World :=
  {| ui := setAnswers (<[i := v]> (answers (ui w))) (ui w);
     disk := setAnswer i v (disk w) |}.

Definition jumpTo (i : string) (w : World) : World :=
  {| ui := setCurrentId i (ui w);
     disk := persistMeta {| p_startedAt := None; p_submittedAt := None; p_view := None;
                            p_currentId := Some i; p_reviewId := None |} (disk w) |}.

Definition jumpReview (i : string) (w : World) : World :=
  {| ui := setReviewId i (ui w);
     disk := persistMeta {| p_startedAt := None; p_submittedAt := None; p_view := None;
                            p_currentId := None; p_reviewId := Some i |} (disk w) |}.

(** [questions.filter((q) => !(answers[q.id] ?? '').trim())] *)
Definition unanswered (qs : list Question) (a : gmap string string) : list Question :=
  List.filter (fun q => negb (JsString.truthy (trim (answerOf a (id q))))) qs.

(** The part of [submit] after the guard (lines 180-185). *)
Definition submitNow (t1 t2 : Z) (w : World) : World :=
  let m := loadMeta (disk w) in
  let startedAt := match Storage.startedAt m with Some s => s | None => t1 end in
  let submittedAt := t2 in
  let st := saveMeta (spread m {| p_startedAt := Some startedAt;
                                  p_submittedAt := Some submittedAt;
                                  p_view := Some ViewResult;
                                  p_currentId := Some (currentId (ui w));
                                  p_reviewId := Some (currentId (ui w)) |}) (disk w) in
  {| ui := setView ViewResult (setReviewId (currentId (ui w)) (ui w)); disk := st |}.

Definition submit (confirm : Prompt -> bool) (t1 t2 : Z) (w : World) : World * list Prompt :=
  match questions (ui w) with
  | None => (w, [])
  | Some qs =>
      let n := List.length (unanswered qs (answers (ui w))) in
      if (0 <? n)%nat then
        let ok := confirm (ConfirmSubmit n) in
        if negb ok then (w, [ConfirmSubmit n])
        else (submitNow t1 t2 w, [ConfirmSubmit n])
      else (submitNow t1 t2 w, [])
  end.

Definition clearAnswers (confirm : Prompt -> bool) (w : World) : World * list Prompt :=
  match questions (ui w) with
  | None => (w, [])
  | Some qs =>
      let ok := confirm ConfirmClear in
      if negb ok then (w, [ConfirmClear])
      else
        let st := foldl (fun st q => setAnswer (id q) "" st) (disk w) qs in
        let next := foldl (fun next q => <[id q := ""]> next) ∅ qs in
        ({| ui := setAnswers next (ui w); disk := st |}, [ConfirmClear])
  end.

End App.

(** ** Vocabulary of the statements *)

(** The rows the loader iterates over: the first sheet of a work book that was
    fetched and read; [None] on every path that fails before the loop. *)
Definition firstSheet (net : Loader.Fetched) : option (list Loader.RawRow) :=
  match net with
  | Loader.Resolved res =>
      if Loader.ok res then
        match Loader.body res with
        | Loader.Readable wb =>
            match Loader.SheetNames wb with
            | sheetName :: _ =>
                if JsString.truthy sheetName then Loader.Sheets wb !! sheetName else None
            | [] => None
            end
        | Loader.Unreadable _ => None
        end
      else None
  | Loader.Rejected _ => None
  end.

(** The ids of the valid rows of a sheet, in sheet order: the trimmed [id]
    cells that are not empty. *)
Definition rowIds (rows : list Loader.RawRow) : list string :=
  List.filter JsString.truthy
    (map (fun row => trim (Loader.asString (Loader.cell row "id"))) rows).

(** The number of questions whose answer is empty or white space only. *)
Definition blankAnswers (qs : list Question) (a : gmap string string) : nat :=
  List.length (List.filter (fun q => blank (App.answerOf a (id q))) qs).

(** The number of questions answered correctly. *)
Definition correctAnswers (qs : list Question) (a : gmap string string) : nat :=
  List.length (List.filter (fun q => isCorrect q (App.answerOf a (id q))) qs).

(** The transitions of section 4.1 that write the metadata record. *)
Inductive Action :=
| StartNew (t : Z)
| Continue (t : Z)
| GoResult (t1 t2 : Z)
| Submit (confirm : App.Prompt -> bool) (t1 t2 : Z)
| JumpTo (i : string)
| JumpReview (i : string).

Definition run (a : Action) (w : App.World) : option App.World :=
  match a with
  | StartNew t => App.startNew t w
  | Continue t => App.continueQuiz t w
  | GoResult t1 t2 => App.goResult t1 t2 w
  | Submit confirm t1 t2 => Some (fst (App.submit confirm t1 t2 w))
  | JumpTo i => Some (App.jumpTo i w)
  | JumpReview i => Some (App.jumpReview i w)
  end.

(** The keys, with their values, of the object literal a transition hands to
    [saveMeta] or [persistMeta] (next to [...m], where it has one); no key
    when the handler returns before it writes. *)
Definition written (a : Action) (w : App.World) : Storage.PartialMeta :=
  let m := Storage.loadMeta (App.disk w) in
  match App.questions (App.ui w), a with
  | _, JumpTo i =>
      {| Storage.p_startedAt := None; Storage.p_submittedAt := None;
         Storage.p_view := None; Storage.p_currentId := Some i;
         Storage.p_reviewId := None |}
  | _, JumpReview i =>
      {| Storage.p_startedAt := None; Storage.p_submittedAt := None;
         Storage.p_view := None; Storage.p_currentId := None;
         Storage.p_reviewId := Some i |}
  | Some (q0 :: rest), StartNew t =>
      {| Storage.p_startedAt := Some t; Storage.p_submittedAt := None;
         Storage.p_view := Some ViewQuiz; Storage.p_currentId := Some (id q0);
         Storage.p_reviewId := Some (id q0) |}
  | Some (q0 :: rest), Continue t =>
      {| Storage.p_startedAt := Some (default t (Storage.startedAt m));
         Storage.p_submittedAt := None;
         Storage.p_view := Some ViewQuiz;
         Storage.p_currentId :=
           Some (App.resolveId (q0 :: rest) (Storage.currentId m) (id q0));
         Storage.p_reviewId := None |}
  | Some (q0 :: rest), GoResult t1 t2 =>
      {| Storage.p_startedAt := Some (default t1 (Storage.startedAt m));
         Storage.p_submittedAt := Some (default t2 (Storage.submittedAt m));
         Storage.p_view := Some ViewResult;
         Storage.p_currentId := None;
         Storage.p_reviewId :=
           Some (App.resolveId (q0 :: rest) (Storage.reviewId m) (id q0)) |}
  | Some qs, Submit confirm t1 t2 =>
      let n := List.length (App.unanswered qs (App.answers (App.ui w))) in
      if (0 <? n)%nat && negb (confirm (App.ConfirmSubmit n)) then Storage.no_fields
      else
        {| Storage.p_startedAt := Some (default t1 (Storage.startedAt m));
           Storage.p_submittedAt := Some t2;
           Storage.p_view := Some ViewResult;
           Storage.p_currentId := Some (App.currentId (App.ui w));
           Storage.p_reviewId := Some (App.currentId (App.ui w)) |}
  | _, _ => Storage.no_fields
  end.

(** Read-merge-write: what is on disk afterwards is what was on disk before,
    overlaid with the given fields. *)
Definition read_merge_write (before after : Storage.Store) (fields : Storage.PartialMeta) : Prop :=
  Storage.loadMeta after = Storage.spread (Storage.loadMeta before) fields.

Definition isStartNew (a : Action) : bool :=
  match a with StartNew _ => true | _ => false end.

(** What [Submit] establishes once it goes through at time [t]: the
    submission time, the result view and the review pointer at the question
    the user was on, on disk and in the component. *)
Definition submittedAtTime (t : Z) (before after : App.World) : Prop :=
  let m := Storage.loadMeta (App.disk after) in
  Storage.submittedAt m = Some t
  /\ Storage.view m = ViewResult
  /\ Storage.reviewId m = Some (App.currentId (App.ui before))
  /\ App.view (App.ui after) = ViewResult
  /\ App.reviewId (App.ui after) = App.currentId (App.ui before).

(** [round(1000 * c / t)] over the rationals, halves upwards. *)
Definition exactTenths (c t : nat) : Z :=
  (2000 * Z.of_nat c + Z.of_nat t) / (2 * Z.of_nat t).

(** The Number that [percent] rounds: [(c / t) * 1000]. *)
Definition scaledRatio (c t : nat) : JsNumber.Number :=
  JsNumber.mul (JsNumber.div (JsNumber.ofZ (Z.of_nat c)) (JsNumber.ofZ (Z.of_nat t)))
               (JsNumber.ofZ 1000).

(** The Number nearest to the rational [num / den]: the division of two
    exact Numbers is correctly rounded. *)
Definition nearest (num den : Z) : JsNumber.Number :=
  JsNumber.div (JsNumber.ofZ num) (JsNumber.ofZ den).

#[global] Instance spec_float_eq_dec : EqDecision spec_float.
Proof. solve_decision. Defined.

(** [Math.round((c / t) * 1000)] is the exact rounding of [1000 * c / t] for
    every [c <= t] with [1 <= t <= bound]. *)
Definition roundingExactUpTo (bound : nat) : bool :=
  forallb (fun t =>
    forallb (fun c =>
      bool_decide (JsNumber.Math_round (scaledRatio c t) = JsNumber.ofZ (exactTenths c t)))
      (seq 0 (S t)))
    (seq 1 bound).

(** [x] is the binary64 number nearest to the rational [num / den], for
    [num >= 0] and [den > 0]: a positive zero for [num = 0], otherwise a
    positive finite number [m * 2^e] in canonical form (53 bits of
    precision, exponents up to 1024) that lies within half a unit in the
    last place, [2^e / 2], of [num / den]. Stated over the integers, with
    no Number arithmetic. *)
Definition isNearest (x : JsNumber.Number) (num den : Z) : bool :=
  match x with
  | S754_zero false => num =? 0
  | S754_finite false m e =>
      bounded 53 1024 m e
      && (if e <? 0
          then Z.abs (2 * Z.pos m * den - 2 * num * 2 ^ (- e)) <=? den
          else Z.abs (2 * Z.pos m * 2 ^ e * den - 2 * num) <=? 2 ^ e * den)
  | _ => false
  end.

(** The percentage shown is the Number nearest to
    [round(1000 * c / t) / 10] for every [c <= t] with [1 <= t < bound]. *)
Definition percentNearestBelow (bound : nat) : bool :=
  forallb (fun t =>
    forallb (fun c =>
      isNearest (App.percent {| App.correct := c; App.total := t |}) (exactTenths c t) 10)
      (seq 0 (S t)))
    (seq 1 (Nat.pred bound)).

(** ** Sample data *)

Module Samples.

Import Loader Storage App.

Definition mc (i a : string) : Question :=
  {| id := i; question := Some "Which one?"; chQuestion := None;
     questionType := MultipleChoice; options := []; chOptions := [];
     answer := a; image := None |}.

Definition fill (i a : string) : Question :=
  {| id := i; question := Some "Which one?"; chQuestion := None;
     questionType := FillInTheBlank; options := []; chOptions := [];
     answer := a; image := None |}.

Definition q1 : Question := mc "1" "b".
Definition q2 : Question := fill "2" "Paris".
Definition q3 : Question := mc "3" "C".

Definition emptyMeta : Meta :=
  {| Storage.startedAt := None; Storage.submittedAt := None;
     Storage.view := ViewStart; Storage.currentId := None;
     Storage.reviewId := None |}.

Definition emptyStore : Store := {| answerStore := ∅; metaStore := emptyMeta |}.

(** The component after the dataset [q1; q2; q3] was loaded on a fresh
    browser. *)
Definition fresh : World :=
  datasetReady [q1; q2; q3] {| ui := initial 0; disk := emptyStore |}.

(** A quiz in progress: question 1 answered, question 2 left blank,
    question 3 answered with white space only. *)
Definition inProgress : World :=
  updateAnswer "3" "  " (updateAnswer "1" " B "
    (jumpTo "2" (default fresh (startNew 1000 fresh)))).

Definition allAnswered : World :=
  updateAnswer "3" "c" (updateAnswer "2" "Paris" inProgress).

Definition decline : Prompt -> bool := fun _ => false.
Definition accept : Prompt -> bool := fun _ => true.

(** Submitted at 2000 with two questions unanswered. *)
Definition submitted : World := fst (submit accept 1500 2000 inProgress).

(** Back to the quiz from the result view with "continue". *)
Definition resumed : World := default submitted (continueQuiz 3000 submitted).

(** A browser whose storage is left over from another dataset version. *)
Definition staleStore : Store :=
  {| answerStore := {[ "1" := "b" ]};
     metaStore := {| Storage.startedAt := Some 500; Storage.submittedAt := Some 900;
                     Storage.view := ViewQuiz; Storage.currentId := Some "77";
                     Storage.reviewId := Some "2" |} |}.

Definition stale : World := {| ui := initial 0; disk := staleStore |}.

(** The sample sheets have no [Options] or [Ch_Options] cell, so
    [parseJsonArray] returns before it calls [JSON.parse]; this is what the
    samples pass for it. *)
Definition JSON_parse : string -> option JsValue := fun _ => None.

Definition row (i : JsValue) (ty ans : string) : RawRow :=
  {[ "id" := i; "Question" := VString "Which one?";
     "Question_Type" := VString ty; "Answer" := VString ans ]}.

Definition sheetOf (rows : list RawRow) : Fetched :=
  Resolved {| ok := true; status := 200;
              body := Readable {| SheetNames := ["Sheet1"];
                                  Sheets := {[ "Sheet1" := rows ]} |} |}.

Definition goodRows : list RawRow :=
  [ row (VNumber "1") "Multiple Choice" "b";
    row (VString "") "Multiple Choice" "x";
    row (VString " 2 ") "Fill-in-the-blank" " Paris " ].

(** Two rows carry the same id, once as a number and once as a text. *)
Definition duplicateRows : list RawRow :=
  [ row (VNumber "1") "Multiple Choice" "b";
    row (VString " 1 ") "Multiple Choice" "c" ].

(** A dataset of 400 multiple-choice questions with ids [1] to [400], all
    with the canonical answer [a]. *)
Definition qs400 : list Question := map (fun k => mc (pretty k) "a") (seq 1 400).

(** The first 201 of them answered [a], the others not answered. *)
Definition answers201 : gmap string string :=
  list_to_map (map (fun k => (pretty k, "a")) (seq 1 201)).

Definition large : World :=
  datasetReady qs400
    {| ui := initial 0; disk := {| answerStore := answers201; metaStore := emptyMeta |} |}.

Definition blankRows : list RawRow :=
  [ row (VString "  ") "Multiple Choice" "b"; row VNull "Multiple Choice" "c" ].

End Samples.

(** ** What the component renders ([App.tsx], lines 95-105 and 209-453) *)

Module Render.

Import Storage App.

(** [Array.prototype.findIndex]: the first index whose element satisfies [p],
    or -1. *)
Fixpoint findIndexFrom {A} (p : A -> bool) (k : Z) (l : list A) : Z :=
  match l with
  | [] => -1
  | x :: r => if p x then k else findIndexFrom p (k + 1) r
  end.

Definition findIndex {A} (p : A -> bool) (l : list A) : Z := findIndexFrom p 0 l.

(** The element access [l[k]] for an integral [k]; [None] is [undefined]. *)
Definition at_ {A} (l : list A) (k : Z) : option A :=
  if k <? 0 then None else l !! Z.to_nat k.

(** The index of the question a pointer names, 0 when it names none. *)
Definition indexOf (qs : option (list Question)) (pointer : string) : Z :=
  match qs with
  | None => 0
  | Some questions =>
      if negb (JsString.truthy pointer) then 0
      else
        let idx := findIndex (fun q => String.eqb (id q) pointer) questions in
        if 0 <=? idx then idx else 0
  end.

Definition currentIndex (s : State) : Z := indexOf (questions s) (currentId s).

Definition reviewIndex (s : State) : Z := indexOf (questions s) (reviewId s).

(** The screen that [App] returns. *)
Inductive Screen :=
| ErrorScreen
| LoadingScreen
| StartScreen
| QuizScreen
| ResultScreen.

Definition screen (s : State) : Screen :=
  if JsString.truthy (error s) then ErrorScreen
  else match questions s with
       | None => LoadingScreen
       | Some _ =>
           match view s with
           | ViewStart => StartScreen
           | ViewQuiz => QuizScreen
           | ViewResult => ResultScreen
           end
       end.

(** The start page shows "continue" when [hasProgress] and "last result"
    when [hasSubmitted]. *)
Definition hasProgress (meta : Meta) (s : State) : bool :=
  JsNumber.truthy (startedAt meta) && (0 <? answeredCount s)%nat.

Definition hasSubmitted (meta : Meta) : bool := JsNumber.truthy (submittedAt meta).

(** [s.startsWith('/')] *)
Definition startsWithSlash (s : string) : bool :=
  match s with
  | String c _ => Ascii.eqb c "/"
  | EmptyString => false
  end.

Definition sampleImage (qs : list Question) : string :=
  match List.find (fun q => JsString.truthy (trim (default "" (image q)))) qs with
  | None => ""
  | Some hit =>
      match image hit with
      | None => ""
      | Some img =>
          if negb (JsString.truthy img) then ""
          else if startsWithSlash img then img else "/" ++ img
      end
  end.

(** The mark of a result cell: none, the check mark or the cross (both
    outside the code units of the string model). *)
Inductive Mark := NoMark | CheckMark | CrossMark.

Record GridItem := {
  item_id : string;
  index : nat;
  className : string;
  mark : Mark
}.

(** The grid of the quiz page (lines 301-305). *)
Definition gridItems (qs : list Question) (a : gmap string string) : list GridItem :=
  imap (fun i qq =>
          {| item_id := id qq; index := i;
             className := if JsString.truthy (trim (answerOf a (id qq)))
                          then "answered" else "";
             mark := NoMark |}) qs.

(** The grid of the result page (lines 374-380). *)
Definition resultGrid (qs : list Question) (a : gmap string string) : list GridItem :=
  imap (fun i qq =>
          let user := trim (answerOf a (id qq)) in
          if negb (JsString.truthy user)
          then {| item_id := id qq; index := i; className := "unanswered"; mark := NoMark |}
          else if isCorrect qq user
               then {| item_id := id qq; index := i; className := "correct";
                       mark := CheckMark |}
               else {| item_id := id qq; index := i; className := "wrong";
                       mark := CrossMark |}) qs.

(** The cells of a grid that carry the class [c]. *)
Definition hasClass (c : string) (g : GridItem) : bool := String.eqb (className g) c.

(** [canPrev] and [canNext] of the question panel. *)
Definition canPrev (k : Z) : bool := 0 <? k.

Definition canNext (qs : list Question) (k : Z) : bool :=
  k <? Z.of_nat (List.length qs) - 1.

(** The question a page shows, [questions[k]]. *)
Definition shown (s : State) (k : Z) : option Question :=
  match questions s with
  | None => None
  | Some qs => at_ qs k
  end.

(** [onPrev] and [onNext] of the quiz page (lines 357-358); [None] when the
    element access yields [undefined] and reading its [id] throws. *)
Definition onPrev (w : World) : option World :=
  q ← shown (ui w) (Z.max 0 (currentIndex (ui w) - 1));
  Some (jumpTo (id q) w).

Definition onNext (w : World) : option World :=
  match questions (ui w) with
  | None => None
  | Some qs =>
      q ← at_ qs (Z.min (Z.of_nat (List.length qs) - 1) (currentIndex (ui w) + 1));
      Some (jumpTo (id q) w)
  end.

(** [onPrev] and [onNext] of the result page (lines 442-443). *)
Definition onReviewPrev (w : World) : option World :=
  q ← shown (ui w) (Z.max 0 (reviewIndex (ui w) - 1));
  Some (jumpReview (id q) w).

Definition onReviewNext (w : World) : option World :=
  match questions (ui w) with
  | None => None
  | Some qs =>
      q ← at_ qs (Z.min (Z.of_nat (List.length qs) - 1) (reviewIndex (ui w) + 1));
      Some (jumpReview (id q) w)
  end.

(** [onChange] of the quiz page (line 352): the answer goes to the question
    on show. *)
Definition onChange (v : string) (w : World) : option World :=
  q ← shown (ui w) (currentIndex (ui w));
  Some (updateAnswer (id q) v w).

End Render.

(** ** The component as a transition system *)

Module Session.

Import Storage App Render.

(** What can happen to a mounted component: a click on a control of the
    current page, a key stroke in the answer field, or a timer tick. Clock
    readings and the user's choice in a confirmation come with the event. *)
Inductive Event :=
| ClickStart (t : Z)
| ClickContinue (t : Z)
| ClickLastResult (t1 t2 : Z)
| ClickClear (confirm : Prompt -> bool)
| ClickSubmit (confirm : Prompt -> bool) (t1 t2 : Z)
| GridJump (i : string)
| ClickPrev
| ClickNext
| Change (v : string)
| ReviewJump (i : string)
| ReviewPrev
| ReviewNext
| Tick (t : Z).

(** The handler wired to an event; [None] when it throws. *)
Definition handle (e : Event) (w : World) : option World :=
  match e with
  | ClickStart t => startNew t w
  | ClickContinue t => continueQuiz t w
  | ClickLastResult t1 t2 => goResult t1 t2 w
  | ClickClear confirm => Some (fst (clearAnswers confirm w))
  | ClickSubmit confirm t1 t2 => Some (fst (submit confirm t1 t2 w))
  | GridJump i => Some (jumpTo i w)
  | ClickPrev => onPrev w
  | ClickNext => onNext w
  | Change v => onChange v w
  | ReviewJump i => Some (jumpReview i w)
  | ReviewPrev => onReviewPrev w
  | ReviewNext => onReviewNext w
  | Tick t => Some (tick t w)
  end.

(** The ids a grid is given, the only ones it hands to [onJump]. *)
Definition gridIds (s : State) : list string :=
  match questions s with
  | None => []
  | Some qs => map id qs
  end.

(** The controls of each page. The start page hides "continue" and "last
    result" unless [hasProgress] and [hasSubmitted]; that is not used here,
    so the relation covers every click the component can receive. *)
Definition offered (e : Event) (w : World) : Prop :=
  match e with
  | Tick _ => True
  | ClickStart _ => screen (ui w) = StartScreen \/ screen (ui w) = ResultScreen
  | ClickContinue _ => screen (ui w) = StartScreen \/ screen (ui w) = ResultScreen
  | ClickLastResult _ _ => screen (ui w) = StartScreen
  | ClickClear _ | ClickSubmit _ _ _ | ClickPrev | ClickNext | Change _ =>
      screen (ui w) = QuizScreen
  | GridJump i => screen (ui w) = QuizScreen /\ i ∈ gridIds (ui w)
  | ReviewPrev | ReviewNext => screen (ui w) = ResultScreen
  | ReviewJump i => screen (ui w) = ResultScreen /\ i ∈ gridIds (ui w)
  end.

(** Every reading of [Date.now()] that comes with the event is after the
    epoch. *)
Definition timely (e : Event) : Prop :=
  match e with
  | ClickStart t | ClickContinue t => 0 < t
  | ClickLastResult t1 t2 | ClickSubmit _ t1 t2 => 0 < t1 /\ 0 < t2
  | _ => True
  end.

(** Time stamps that this component wrote: absent, or after the epoch. *)
Definition stamped (m : Meta) : Prop :=
  (forall s, startedAt m = Some s -> 0 < s)
  /\ (forall s, submittedAt m = Some s -> 0 < s).

(** The component right after the page was opened at [t] over the storage
    [d] and the dataset [qs] arrived. *)
Definition opened (qs : list Question) (t : Z) (d : Store) : World :=
  datasetReady qs {| ui := initial t; disk := d |}.

(** The states a session can be in after the dataset [qs] was loaded over
    the storage [d]. *)
Inductive reachable (qs : list Question) (d : Store) : World -> Prop :=
| reach_opened t : reachable qs d (opened qs t d)
| reach_step e w w' :
    reachable qs d w -> offered e w -> timely e -> handle e w = Some w' ->
    reachable qs d w'.

(** What holds in every state of a session over a loaded dataset. *)
Record consistent (qs : list Question) (w : World) : Prop := {
  c_questions : questions (ui w) = Some qs;
  c_no_error : error (ui w) = "";
  c_current : currentId (ui w) ∈ map id qs;
  c_review : reviewId (ui w) ∈ map id qs;
  c_answers : forall i, answers (ui w) !! i =
                if bool_decide (i ∈ map id qs) then Some (getAnswer i (disk w)) else None;
  c_view : desiredView (loadMeta (disk w)) = App.view (ui w);
  c_stamped : stamped (loadMeta (disk w));
  c_current_disk :
    resolveId qs (Storage.currentId (loadMeta (disk w)))
      (match qs with q :: _ => id q | [] => "" end) = currentId (ui w);
  c_review_disk :
    App.view (ui w) = ViewResult ->
    resolveId qs (Storage.reviewId (loadMeta (disk w))) (currentId (ui w)) = reviewId (ui w)
}.

End Session.

(** ** A sample session *)

Module SessionSamples.

Import Storage App Render Session.

Definition qs3 : list Question := [Samples.q1; Samples.q2; Samples.q3].

(** The page is opened on a fresh browser and "start" is clicked at 1000. *)
Definition started : World :=
  default Samples.fresh (handle (ClickStart 1000) (opened qs3 0 Samples.emptyStore)).

(** The user types an answer to question 1 and moves on to question 2. *)
Definition typed : World := default started (handle (Change " B ") started).

Definition moved : World := default typed (handle ClickNext typed).

(** The user submits at 2000 and confirms the warning. *)
Definition handedIn : World :=
  default moved (handle (ClickSubmit Samples.accept 1500 2000) moved).

(** A storage whose [startedAt] is the epoch itself, as no session of this
    component leaves it: submitted at 5, result view. *)
Definition zeroStore : Store :=
  {| answerStore := ∅;
     metaStore := {| Storage.startedAt := Some 0; Storage.submittedAt := Some 5;
                     Storage.view := ViewResult; Storage.currentId := None;
                     Storage.reviewId := None |} |}.

(** The page is opened over it and "continue" is clicked at 10. *)
Definition zeroResumed : World :=
  default (opened qs3 1 zeroStore) (handle (ClickContinue 10) (opened qs3 1 zeroStore)).

End SessionSamples.

(** * Properties *)

(** ** Strings: [trim] and [toUpperCase] *)

Section StringFacts.

Lemma trimEnd_empty_iff s : trimEnd s = "" <-> blank s = true.
Proof.
  induction s as [|c r IH]; simpl; [tauto|].
  destruct (trimEnd r) eqn:Er.
  - destruct (isWhiteSpace c); simpl.
    + rewrite <- IH. tauto.
    + split; discriminate.
  - split; [discriminate|].
    intros [_ Hb]%andb_true_iff. apply IH in Hb. discriminate.
Qed.

Lemma blank_trimStart s : blank (trimStart s) = blank s.
Proof.
  induction s as [|c r IH]; simpl; [reflexivity|].
  destruct (isWhiteSpace c) eqn:Ec; simpl; [assumption|].
  now rewrite Ec.
Qed.

Lemma trim_empty_iff s : trim s = "" <-> blank s = true.
Proof. unfold trim. now rewrite trimEnd_empty_iff, blank_trimStart. Qed.

Lemma truthy_trim s : JsString.truthy (trim s) = negb (blank s).
Proof.
  destruct (blank s) eqn:Eb.
  - apply trim_empty_iff in Eb. now rewrite Eb.
  - destruct (trim s) eqn:Et; [|reflexivity].
    apply trim_empty_iff in Et. congruence.
Qed.





Lemma isWhiteSpace_toLower c : isWhiteSpace (toLower c) = isWhiteSpace c.
Proof. destruct c as [[] [] [] [] [] [] [] []]; reflexivity. Qed.

(** Lower-casing a code unit first does not change its upper-case form. *)
Lemma toUpper_toLower c : toUpper (toLower c) = toUpper c.
Proof. destruct c as [[] [] [] [] [] [] [] []]; reflexivity. Qed.

Lemma toUpper_nonempty c : toUpper c <> [].
Proof. destruct c as [[] [] [] [] [] [] [] []]; discriminate. Qed.

Lemma trimStart_toLowerCase s : trimStart (toLowerCase s) = toLowerCase (trimStart s).
Proof.
  induction s as [|c r IH]; simpl; [reflexivity|].
  rewrite isWhiteSpace_toLower. now destruct (isWhiteSpace c).
Qed.

Lemma trimEnd_toLowerCase s : trimEnd (toLowerCase s) = toLowerCase (trimEnd s).
Proof.
  induction s as [|c r IH]; simpl; [reflexivity|].
  rewrite IH, isWhiteSpace_toLower.
  destruct (trimEnd r); simpl; [|reflexivity].
  now destruct (isWhiteSpace c).
Qed.

Lemma trim_toLowerCase s : trim (toLowerCase s) = toLowerCase (trim s).
Proof. unfold trim. now rewrite trimStart_toLowerCase, trimEnd_toLowerCase. Qed.


Lemma toUpperCase_toLowerCase s : toUpperCase (toLowerCase s) = toUpperCase s.
Proof.
  induction s as [|c r IH]; simpl; [reflexivity|].
  now rewrite IH, toUpper_toLower.
Qed.



Lemma eqb_bool_decide (a b : string) : String.eqb a b = bool_decide (a = b).
Proof.
  destruct (String.eqb_spec a b) as [E|NE].
  - now rewrite bool_decide_eq_true_2.
  - now rewrite bool_decide_eq_false_2.
Qed.

End StringFacts.

(** ** Scoring *)

Lemma isCorrect_unfold q s :
  isCorrect q s =
  negb (blank s) &&
  match questionType q with
  | MultipleChoice => bool_decide (toUpperCase (trim s) = toUpperCase (trim (answer q)))
  | FillInTheBlank => bool_decide (trim s = trim (answer q))
  end.
Proof.
  unfold isCorrect, normalizeChoice, normalizeFill.
  rewrite truthy_trim, negb_involutive, eqb_bool_decide.
  now destruct (blank s), (questionType q).
Qed.




(** A fill-in-the-blank answer is compared with its case. *)
Example isCorrect_fill_case_sensitive :
  isCorrect (Samples.fill "2" "Paris") "paris" = false
  /\ isCorrect (Samples.mc "2" "Paris") "paris" = true.
Proof. split; reflexivity. Qed.

(** Letters beyond [a]..[z]: a small e with acute (233) is accepted for the
    capital one (201), and a sharp s (223) for [SS]; upper-casing the micro
    sign (181) leaves the one-byte range. *)
Example isCorrect_latin1_case :
  isCorrect (Samples.mc "1" (String (ascii_of_N 201) "")) (String (ascii_of_N 233) "") = true
  /\ isCorrect (Samples.mc "1" "STRASSE") ("stra" ++ String (ascii_of_N 223) "e") = true
  /\ isCorrect (Samples.fill "1" (String (ascii_of_N 201) "")) (String (ascii_of_N 233) "")
     = false
  /\ toUpperCase (String (ascii_of_N 181) "") = [924%N].
Proof. split_and!; reflexivity. Qed.

(** ** The dataset loader *)

Section LoaderFacts.

Import Loader.

Variable JSON_parse : string -> option JsValue.

Lemma truthy_nonempty s : JsString.truthy s = true <-> s <> "".
Proof. destruct s; simpl; split; congruence. Qed.

Lemma parseRows_ids rows : map id (parseRows JSON_parse rows) = rowIds rows.
Proof.
  unfold rowIds. induction rows as [|row rest IH]; simpl; [reflexivity|].
  unfold parseRow.
  destruct (JsString.truthy (trim (asString (cell row "id")))); simpl.
  - now rewrite IH.
  - exact IH.
Qed.

Lemma rowIds_nonempty rows : Forall (fun i => i <> "") (rowIds rows).
Proof.
  unfold rowIds. apply List.Forall_forall. intros i [_ Hi]%filter_In.
  now apply truthy_nonempty.
Qed.

Lemma loader_unfold net :
  loadDatasetFromPublicXlsx JSON_parse net =
  match firstSheet net with
  | Some rows =>
      if (List.length (parseRows JSON_parse rows) =? 0)%nat
      then inl "No questions parsed from dataset.xlsx"
      else inr (parseRows JSON_parse rows)
  | None => loadDatasetFromPublicXlsx JSON_parse net
  end.
Proof.
  destruct net as [msg|[o st [msg|[names sheets]]]]; simpl; try reflexivity.
  - now destruct o.
  - destruct o; simpl; [|reflexivity].
    destruct names as [|name names]; [reflexivity|].
    destruct (JsString.truthy name); simpl; [|reflexivity].
    now destruct (sheets !! name).
Qed.

Lemma loader_failure_without_sheet net :
  firstSheet net = None -> exists msg, loadDatasetFromPublicXlsx JSON_parse net = inl msg.
Proof.
  destruct net as [msg|[o st [msg|[names sheets]]]]; simpl; eauto.
  - destruct o; simpl; eauto.
  - destruct o; simpl; eauto.
    destruct names as [|name names]; eauto.
    destruct (JsString.truthy name); simpl; eauto.
    destruct (sheets !! name); [discriminate|eauto].
Qed.

(** What a fulfilled load gives: the valid rows of the first sheet. *)
Lemma loader_success net qs :
  loadDatasetFromPublicXlsx JSON_parse net = inr qs ->
  exists rows, firstSheet net = Some rows /\ qs = parseRows JSON_parse rows /\ qs <> [].
Proof.
  intros H. destruct (firstSheet net) as [rows|] eqn:Ef.
  - rewrite loader_unfold, Ef in H. exists rows.
    destruct (parseRows JSON_parse rows) as [|q r] eqn:Ep; simpl in H; [discriminate|].
    now inversion H; subst.
  - apply loader_failure_without_sheet in Ef as [msg Ef]. congruence.
Qed.

Lemma loaded_ids_nonempty net qs :
  loadDatasetFromPublicXlsx JSON_parse net = inr qs ->
  qs <> [] /\ Forall (fun q => id q <> "") qs.
Proof.
  intros (rows & _ & -> & Hne)%loader_success. split; [assumption|].
  pose proof (rowIds_nonempty rows) as H. rewrite <- parseRows_ids in H.
  apply List.Forall_forall. intros q Hq.
  rewrite List.Forall_forall in H. apply H. now apply in_map.
Qed.

End LoaderFacts.

(** C4 (as amended). On success the loader returns, in sheet order, one
    record per row of the first sheet whose trimmed id is not empty: the list
    is not empty, every id in it is non-empty, and its ids are pairwise
    distinct exactly when those of the valid rows are, since the loader
    neither checks nor removes duplicates. When no row is valid the promise is
    rejected with an error and no list is returned; on every path the
    outcome is either one error or one list. *)
Theorem loader_ids_nonempty_in_sheet_order
    (JSON_parse : string -> option Loader.JsValue) (net : Loader.Fetched) :
  (forall qs, Loader.loadDatasetFromPublicXlsx JSON_parse net = inr qs ->
     qs <> [] /\
     Forall (fun q => id q <> "") qs /\
     exists rows, firstSheet net = Some rows /\
                  map id qs = rowIds rows /\
                  (NoDup (map id qs) <-> NoDup (rowIds rows)))
  /\ (forall rows, firstSheet net = Some rows -> rowIds rows = [] ->
        Loader.loadDatasetFromPublicXlsx JSON_parse net =
        inl "No questions parsed from dataset.xlsx")
  /\ (firstSheet net = None ->
        exists msg, Loader.loadDatasetFromPublicXlsx JSON_parse net = inl msg).
Proof.
  split_and!.
  - intros qs H. destruct (loaded_ids_nonempty _ _ _ H) as [Hne Hids].
    split_and!; try assumption.
    apply loader_success in H as (rows & Ef & -> & _).
    exists rows. rewrite parseRows_ids. tauto.
  - intros rows Ef Hnone. rewrite loader_unfold, Ef.
    pose proof (parseRows_ids JSON_parse rows) as E. rewrite Hnone in E.
    now destruct (Loader.parseRows JSON_parse rows).
  - apply loader_failure_without_sheet.
Qed.

(** The amended statement at a sample sheet of three rows, one of them
    without an id. *)
Lemma loader_ids_nonempty_in_sheet_order_witness :
  Loader.loadDatasetFromPublicXlsx Samples.JSON_parse (Samples.sheetOf Samples.goodRows)
    = inr [Samples.q1; Samples.q2]
  /\ [Samples.q1; Samples.q2] <> []
  /\ Forall (fun q => id q <> "") [Samples.q1; Samples.q2]
  /\ exists rows, firstSheet (Samples.sheetOf Samples.goodRows) = Some rows /\
                  map id [Samples.q1; Samples.q2] = rowIds rows /\
                  (NoDup (map id [Samples.q1; Samples.q2]) <-> NoDup (rowIds rows)).
Proof.
  split; [reflexivity|].
  apply (proj1 (loader_ids_nonempty_in_sheet_order
                  Samples.JSON_parse (Samples.sheetOf Samples.goodRows))).
  reflexivity.
Defined.

(** C4, counterexample. Two rows of the sheet carry the id 1, once as a
    number and once as a text with spaces around it: the load succeeds and
    both records of the list have the id ["1"]. *)
Lemma loader_keeps_duplicate_ids :
  exists qs,
    Loader.loadDatasetFromPublicXlsx Samples.JSON_parse
      (Samples.sheetOf Samples.duplicateRows) = inr qs
    /\ map id qs = ["1"; "1"]
    /\ ~ NoDup (map id qs).
Proof.
  eexists. split; [reflexivity|]. split; [reflexivity|].
  simpl. intros H. apply NoDup_cons_1_1 in H. apply H. now left.
Qed.

(** ** Initialization *)

Lemma hasId_elem qs i : App.hasId qs i = true <-> i ∈ map id qs.
Proof.
  unfold App.hasId. rewrite existsb_exists, list_elem_of_In, in_map_iff.
  split; intros (q & H1 & H2); exists q.
  - now apply String.eqb_eq in H2.
  - split; [assumption|]. now apply String.eqb_eq.
Qed.

Lemma resolveId_spec qs p fallback :
  Forall (fun q => id q <> "") qs ->
  App.resolveId qs p fallback =
  match p with
  | Some i => if bool_decide (i ∈ map id qs) then i else fallback
  | None => fallback
  end.
Proof.
  intros Hids. destruct p as [i|]; simpl; [|reflexivity].
  destruct (App.hasId qs i) eqn:Eh.
  - pose proof (proj1 (hasId_elem qs i) Eh) as Hin.
    rewrite (bool_decide_eq_true_2 _ Hin).
    destruct i; [|reflexivity].
    exfalso. apply list_elem_of_In, in_map_iff in Hin as (q & Hq & Hin).
    rewrite List.Forall_forall in Hids. now apply (Hids q).
  - rewrite andb_false_r. case_bool_decide as Hin; [|reflexivity].
    apply hasId_elem in Hin. congruence.
Qed.

Lemma resolveId_in qs p fallback :
  fallback ∈ map id qs -> App.resolveId qs p fallback ∈ map id qs.
Proof.
  intros Hf. destruct p as [i|]; simpl; [|assumption].
  destruct (JsString.truthy i); simpl; [|assumption].
  destruct (App.hasId qs i) eqn:Eh; [|assumption].
  now apply hasId_elem.
Qed.

(** C2. On a loaded dataset and for any persisted metadata, initialization
    resolves [currentId] to the persisted one when that names a loaded
    question and to the first question's id otherwise, resolves [reviewId] to
    the persisted one when that names a loaded question and to the resolved
    [currentId] otherwise, and both pointers name loaded questions. *)
Theorem initialize_resolves_pointers
    (JSON_parse : string -> option Loader.JsValue) (net : Loader.Fetched)
    (qs : list Question) (w : App.World) :
  Loader.loadDatasetFromPublicXlsx JSON_parse net = inr qs ->
  let m := Storage.loadMeta (App.disk w) in
  let w' := App.mounted (inr qs) w in
  exists first rest,
    qs = first :: rest
    /\ App.currentId (App.ui w') =
       match Storage.currentId m with
       | Some c => if bool_decide (c ∈ map id qs) then c else id first
       | None => id first
       end
    /\ App.reviewId (App.ui w') =
       match Storage.reviewId m with
       | Some r => if bool_decide (r ∈ map id qs) then r else App.currentId (App.ui w')
       | None => App.currentId (App.ui w')
       end
    /\ App.currentId (App.ui w') ∈ map id qs
    /\ App.reviewId (App.ui w') ∈ map id qs
    /\ App.questions (App.ui w') = Some qs
    /\ App.disk w' = App.disk w.
Proof.
  intros Hload m w'.
  destruct (loaded_ids_nonempty _ _ _ Hload) as [Hne Hids].
  destruct qs as [|first rest]; [congruence|]. exists first, rest.
  assert (Hfirst : id first ∈ map id (first :: rest)) by (simpl; left).
  subst w' m. simpl.
  rewrite <- !(resolveId_spec (first :: rest)) by assumption.
  split_and!; try reflexivity.
  - now apply resolveId_in.
  - now apply resolveId_in, resolveId_in.
Qed.

(** Initialization over storage left by another dataset version: the
    persisted [currentId] 77 is unknown and replaced by the first id, the
    persisted [reviewId] 2 is kept. *)
Lemma initialize_resolves_pointers_witness :
  App.currentId (App.ui (App.mounted (inr [Samples.q1; Samples.q2]) Samples.stale)) = "1"
  /\ App.reviewId (App.ui (App.mounted (inr [Samples.q1; Samples.q2]) Samples.stale)) = "2".
Proof.
  destruct (initialize_resolves_pointers Samples.JSON_parse
              (Samples.sheetOf Samples.goodRows) [Samples.q1; Samples.q2]
              Samples.stale eq_refl)
    as (first & rest & Eq & Hc & Hr & _).
  injection Eq as <- <-. split.
  - rewrite Hc. reflexivity.
  - rewrite Hr. reflexivity.
Defined.

(** ** Action handlers *)

Section HandlerFacts.

Import Storage App.

Lemma unanswered_count qs a :
  List.length (unanswered qs a) = blankAnswers qs a.
Proof.
  unfold unanswered, blankAnswers. f_equal. apply filter_ext.
  intros q. now rewrite truthy_trim, negb_involutive.
Qed.

(** Blanking the answers of [qs] one by one in a record. *)
Lemma blanked_lookup (qs : list Question) (m : gmap string string) i :
  foldl (fun next q => <[id q := ""]> next) m qs !! i =
  if bool_decide (i ∈ map id qs) then Some "" else m !! i.
Proof.
  revert m. induction qs as [|q qs IH]; intros m.
  - reflexivity.
  - cbn [foldl map]. rewrite IH. destruct (decide (i ∈ map id qs)) as [Hin|Hin].
    + rewrite !bool_decide_eq_true_2; [reflexivity| |assumption]. now right.
    + rewrite (bool_decide_eq_false_2 _ Hin).
      destruct (decide (i = id q)) as [->|Hne].
      * rewrite lookup_insert_eq, bool_decide_eq_true_2; [reflexivity|]. now left.
      * rewrite lookup_insert_ne by congruence.
        rewrite bool_decide_eq_false_2; [reflexivity|].
        intros [?|?]%elem_of_cons; contradiction.
Qed.

Lemma setAnswers_fold_answers (qs : list Question) st :
  answerStore (foldl (fun st q => setAnswer (id q) "" st) st qs) =
  foldl (fun next q => <[id q := ""]> next) (answerStore st) qs.
Proof. revert st. induction qs as [|q qs IH]; intros st; simpl; [|rewrite IH]; reflexivity. Qed.

Lemma setAnswers_fold_meta (qs : list Question) st :
  metaStore (foldl (fun st q => setAnswer (id q) "" st) st qs) = metaStore st.
Proof. revert st. induction qs as [|q qs IH]; intros st; simpl; [|rewrite IH]; reflexivity. Qed.

Lemma clearAll_as_fold (qs : list Question) st :
  clearAll (map id qs) st = foldl (fun st q => setAnswer (id q) "" st) st qs.
Proof.
  unfold clearAll. revert st.
  induction qs as [|q qs IH]; intros st; simpl; [|rewrite IH]; reflexivity.
Qed.

Lemma getAnswer_blanked (qs : list Question) st q :
  q ∈ qs -> getAnswer (id q) (foldl (fun st q => setAnswer (id q) "" st) st qs) = "".
Proof.
  intros Hq. unfold getAnswer.
  rewrite setAnswers_fold_answers, blanked_lookup, bool_decide_eq_true_2; [reflexivity|].
  apply list_elem_of_In, in_map. now apply list_elem_of_In.
Qed.

Lemma answers_blanked (qs : list Question) i v :
  foldl (fun next q => <[id q := ""]> next) (∅ : gmap string string) qs !! i = Some v ->
  v = "" /\ i ∈ map id qs.
Proof.
  rewrite blanked_lookup. case_bool_decide; [|now rewrite lookup_empty].
  intros [= <-]. now split.
Qed.

Lemma answers_blanked_at (qs : list Question) q :
  q ∈ qs ->
  foldl (fun next q => <[id q := ""]> next) (∅ : gmap string string) qs !! id q = Some "".
Proof.
  intros Hq. rewrite blanked_lookup, bool_decide_eq_true_2; [reflexivity|].
  apply list_elem_of_In, in_map. now apply list_elem_of_In.
Qed.

End HandlerFacts.

(** C1. [submit] with N > 0 questions whose answer is empty or white space
    only raises one confirmation that carries N; declining it leaves the
    component and the storage exactly as they were; accepting it, or having no
    unanswered question (then without any prompt), sets [submittedAt] to the
    time of the call, the view to [result] and [reviewId] to the current
    [currentId]. *)
Theorem submit_confirms_unanswered
    (confirm : App.Prompt -> bool) (t1 t2 : Z) (w : App.World) (qs : list Question) :
  App.questions (App.ui w) = Some qs ->
  let n := blankAnswers qs (App.answers (App.ui w)) in
  let out := App.submit confirm t1 t2 w in
  ((0 < n)%nat -> snd out = [App.ConfirmSubmit n])
  /\ ((0 < n)%nat -> confirm (App.ConfirmSubmit n) = false -> fst out = w)
  /\ ((0 < n)%nat -> confirm (App.ConfirmSubmit n) = true ->
        submittedAtTime t2 w (fst out))
  /\ (n = 0%nat -> snd out = [] /\ submittedAtTime t2 w (fst out)).
Proof.
  intros Hq n out. subst out n. unfold App.submit. rewrite Hq, unanswered_count.
  destruct (blankAnswers qs (App.answers (App.ui w))) as [|k] eqn:En; simpl.
  - split_and!; try lia. intros _. split; [reflexivity|]. repeat split.
  - split_and!; try discriminate.
    + intros _. now destruct (confirm _).
    + intros _ ->. reflexivity.
    + intros _ ->. repeat split.
Qed.

(** On the sample quiz two of three answers are blank: the prompt names 2,
    declining changes nothing, accepting submits at 2000; with every answer
    given there is no prompt. *)
Lemma submit_confirms_unanswered_witness :
  App.submit Samples.decline 1500 2000 Samples.inProgress
    = (Samples.inProgress, [App.ConfirmSubmit 2])
  /\ submittedAtTime 2000 Samples.inProgress
       (fst (App.submit Samples.accept 1500 2000 Samples.inProgress))
  /\ snd (App.submit Samples.accept 1500 2000 Samples.allAnswered) = [].
Proof.
  pose proof (submit_confirms_unanswered Samples.decline 1500 2000 Samples.inProgress
                _ eq_refl) as (Hp & Hd & _).
  pose proof (submit_confirms_unanswered Samples.accept 1500 2000 Samples.inProgress
                _ eq_refl) as (_ & _ & Ha & _).
  pose proof (submit_confirms_unanswered Samples.accept 1500 2000 Samples.allAnswered
                _ eq_refl) as (_ & _ & _ & Hn).
  split_and!.
  - rewrite (surjective_pairing (App.submit _ _ _ _)), Hd, Hp;
      [reflexivity | vm_compute; lia | vm_compute; lia | reflexivity].
  - apply Ha; [vm_compute; lia | reflexivity].
  - apply Hn. reflexivity.
Defined.

(** C10. [updateAnswer i v] makes [v] the answer of question [i] in the
    in-memory record and in the persisted answer store, and leaves the answer
    of every other question as it was in both. *)
Theorem updateAnswer_sets_one (i v : string) (w : App.World) :
  let w' := App.updateAnswer i v w in
  App.answers (App.ui w') !! i = Some v
  /\ Storage.getAnswer i (App.disk w') = v
  /\ (forall j, j <> i ->
        App.answers (App.ui w') !! j = App.answers (App.ui w) !! j
        /\ Storage.getAnswer j (App.disk w') = Storage.getAnswer j (App.disk w)).
Proof.
  simpl. unfold Storage.getAnswer. simpl. split_and!.
  - apply lookup_insert_eq.
  - now rewrite lookup_insert_eq.
  - intros j Hj. now rewrite !lookup_insert_ne by congruence.
Qed.

(** Answering question 2 of the sample quiz leaves the answer to question 1. *)
Lemma updateAnswer_sets_one_witness :
  App.answers (App.ui (App.updateAnswer "2" "Paris" Samples.inProgress)) !! "1" = Some " B "
  /\ Storage.getAnswer "1" (App.disk (App.updateAnswer "2" "Paris" Samples.inProgress)) = " B ".
Proof.
  destruct (updateAnswer_sets_one "2" "Paris" Samples.inProgress) as (_ & _ & Hframe).
  destruct (Hframe "1") as [Hm Hd]; [discriminate|].
  split.
  - rewrite Hm. reflexivity.
  - rewrite Hd. reflexivity.
Defined.

(** C7. [startNew] on a loaded, non-empty dataset resets the session: every
    question's answer is the empty string on disk and in memory, [startedAt]
    is the time of the call, the view is [quiz], [currentId] and [reviewId]
    are the first question's id, and [submittedAt] is absent from the
    persisted metadata. *)
Theorem startNew_full_reset
    (t : Z) (w : App.World) (first : Question) (rest : list Question) :
  App.questions (App.ui w) = Some (first :: rest) ->
  exists w',
    App.startNew t w = Some w'
    /\ (forall q, q ∈ first :: rest ->
          Storage.getAnswer (id q) (App.disk w') = ""
          /\ App.answers (App.ui w') !! id q = Some "")
    /\ (forall i v, App.answers (App.ui w') !! i = Some v -> v = "")
    /\ Storage.startedAt (Storage.loadMeta (App.disk w')) = Some t
    /\ Storage.submittedAt (Storage.loadMeta (App.disk w')) = None
    /\ Storage.view (Storage.loadMeta (App.disk w')) = ViewQuiz
    /\ App.view (App.ui w') = ViewQuiz
    /\ Storage.currentId (Storage.loadMeta (App.disk w')) = Some (id first)
    /\ App.currentId (App.ui w') = id first
    /\ Storage.reviewId (Storage.loadMeta (App.disk w')) = Some (id first)
    /\ App.reviewId (App.ui w') = id first.
Proof.
  intros Hq. unfold App.startNew. rewrite Hq. eexists. split; [reflexivity|].
  cbn [App.ui App.disk App.answers App.setView App.setReviewId App.setCurrentId
       App.setAnswers App.view App.currentId App.reviewId Storage.loadMeta
       Storage.saveMeta Storage.metaStore Storage.startedAt Storage.submittedAt
       Storage.view Storage.currentId Storage.reviewId].
  split_and!; try reflexivity.
  - intros q Hin. split.
    + rewrite clearAll_as_fold. unfold Storage.getAnswer. cbn [Storage.answerStore].
      now apply getAnswer_blanked.
    + now apply answers_blanked_at.
  - intros i v Hv. now apply answers_blanked in Hv.
Qed.

(** Restarting from the sample result view: the old answers and the old
    submission time are gone. *)
Lemma startNew_full_reset_witness :
  exists w',
    App.startNew 3000 Samples.submitted = Some w'
    /\ Storage.getAnswer "1" (App.disk w') = ""
    /\ Storage.getAnswer "1" (App.disk Samples.submitted) = " B "
    /\ Storage.submittedAt (Storage.loadMeta (App.disk w')) = None
    /\ Storage.submittedAt (Storage.loadMeta (App.disk Samples.submitted)) = Some 2000.
Proof.
  destruct (startNew_full_reset 3000 Samples.submitted Samples.q1
              [Samples.q2; Samples.q3] eq_refl)
    as (w' & Hrun & Hans & _ & _ & Hsub & _).
  exists w'. split_and!; try assumption; try reflexivity.
  apply (Hans Samples.q1). now left.
Defined.

(** C9. [clearAnswers] asks for confirmation; declined, it changes nothing;
    confirmed, it makes every question's answer the empty string on disk and
    in memory and leaves the persisted metadata ([startedAt], [submittedAt],
    view and pointers) and the component's view and pointers as they were. *)
Theorem clearAnswers_resets_answers_only
    (confirm : App.Prompt -> bool) (w : App.World) (qs : list Question) :
  App.questions (App.ui w) = Some qs ->
  let out := App.clearAnswers confirm w in
  let w' := fst out in
  snd out = [App.ConfirmClear]
  /\ (confirm App.ConfirmClear = false -> w' = w)
  /\ (confirm App.ConfirmClear = true ->
        (forall q, q ∈ qs ->
           Storage.getAnswer (id q) (App.disk w') = ""
           /\ App.answers (App.ui w') !! id q = Some "")
        /\ (forall i v, App.answers (App.ui w') !! i = Some v -> v = "")
        /\ Storage.loadMeta (App.disk w') = Storage.loadMeta (App.disk w)
        /\ App.view (App.ui w') = App.view (App.ui w)
        /\ App.currentId (App.ui w') = App.currentId (App.ui w)
        /\ App.reviewId (App.ui w') = App.reviewId (App.ui w)).
Proof.
  intros Hq out w'. subst w' out. unfold App.clearAnswers. rewrite Hq.
  destruct (confirm App.ConfirmClear); simpl.
  - split_and!; try reflexivity; try discriminate.
    intros _. split_and!; try reflexivity.
    + intros q Hin. split.
      * now apply getAnswer_blanked.
      * now apply answers_blanked_at.
    + intros i v Hv. now apply answers_blanked in Hv.
    + unfold Storage.loadMeta. apply setAnswers_fold_meta.
  - split_and!; try reflexivity; discriminate.
Qed.

(** Clearing the sample quiz: the answer to question 1 is gone, the start
    time stays; declining keeps everything. *)
Lemma clearAnswers_resets_answers_only_witness :
  Storage.getAnswer "1" (App.disk (fst (App.clearAnswers Samples.accept Samples.inProgress))) = ""
  /\ Storage.getAnswer "1" (App.disk Samples.inProgress) = " B "
  /\ Storage.startedAt (Storage.loadMeta
       (App.disk (fst (App.clearAnswers Samples.accept Samples.inProgress)))) = Some 1000
  /\ fst (App.clearAnswers Samples.decline Samples.inProgress) = Samples.inProgress.
Proof.
  destruct (clearAnswers_resets_answers_only Samples.accept Samples.inProgress _ eq_refl)
    as (_ & _ & Hyes).
  destruct (clearAnswers_resets_answers_only Samples.decline Samples.inProgress _ eq_refl)
    as (_ & Hno & _).
  destruct (Hyes eq_refl) as (Hans & _ & Hmeta & _).
  split_and!.
  - apply (Hans Samples.q1). now left.
  - reflexivity.
  - rewrite Hmeta. reflexivity.
  - apply Hno. reflexivity.
Defined.

(** ** Writes of the metadata record *)

(** C3 (as amended). [Continue], [GoResult], [Submit], [jumpTo] and
    [jumpReview] write the metadata by read-merge-write: the record on disk
    afterwards is the record loaded from disk overlaid with the fields of the
    handler's object literal, so a field that the literal does not have keeps
    its persisted value, a [startedAt] that was set is never replaced, and
    the answer store is not touched. [StartNew] does not read: it overwrites
    the record with just the four fields of its literal, which leaves
    [submittedAt] absent. *)
Theorem metadata_writes_merge_except_startNew (a : Action) (w w' : App.World) :
  run a w = Some w' ->
  let m := Storage.loadMeta (App.disk w) in
  let m' := Storage.loadMeta (App.disk w') in
  let f := written a w in
  (isStartNew a = false ->
     read_merge_write (App.disk w) (App.disk w') f
     /\ (Storage.p_startedAt f = None -> Storage.startedAt m' = Storage.startedAt m)
     /\ (Storage.p_submittedAt f = None -> Storage.submittedAt m' = Storage.submittedAt m)
     /\ (Storage.p_view f = None -> Storage.view m' = Storage.view m)
     /\ (Storage.p_currentId f = None -> Storage.currentId m' = Storage.currentId m)
     /\ (Storage.p_reviewId f = None -> Storage.reviewId m' = Storage.reviewId m)
     /\ (forall s, Storage.startedAt m = Some s -> Storage.startedAt m' = Some s)
     /\ Storage.answerStore (App.disk w') = Storage.answerStore (App.disk w))
  /\ (forall t first rest,
        a = StartNew t -> App.questions (App.ui w) = Some (first :: rest) ->
        m' = {| Storage.startedAt := Some t; Storage.submittedAt := None;
                Storage.view := ViewQuiz; Storage.currentId := Some (id first);
                Storage.reviewId := Some (id first) |}).
Proof.
  intros Hrun m m' f.
  assert (Hframe : read_merge_write (App.disk w) (App.disk w') f ->
            (Storage.p_startedAt f = None -> Storage.startedAt m' = Storage.startedAt m)
            /\ (Storage.p_submittedAt f = None -> Storage.submittedAt m' = Storage.submittedAt m)
            /\ (Storage.p_view f = None -> Storage.view m' = Storage.view m)
            /\ (Storage.p_currentId f = None -> Storage.currentId m' = Storage.currentId m)
            /\ (Storage.p_reviewId f = None -> Storage.reviewId m' = Storage.reviewId m)).
  { unfold read_merge_write. fold m m'. intros ->. unfold Storage.spread.
    split_and!; intros ->; reflexivity. }
  split.
  - intros Ha.
    assert (Hrmw : read_merge_write (App.disk w) (App.disk w') f
                   /\ (forall s, Storage.startedAt m = Some s -> Storage.startedAt m' = Some s)
                   /\ Storage.answerStore (App.disk w') = Storage.answerStore (App.disk w)).
    { subst m m' f. unfold read_merge_write, written.
      destruct w as [u d], d as [ans [st su v ci ri]].
      destruct a as [t|t|t1 t2|confirm t1 t2|i|i]; try discriminate Ha;
        cbn [run] in Hrun;
        unfold App.continueQuiz, App.goResult, App.submit, App.submitNow,
               App.jumpTo, App.jumpReview, App.persistMeta in Hrun |- *;
        cbn [App.ui App.disk Storage.loadMeta Storage.metaStore] in Hrun |- *;
        destruct (App.questions u) as [[|q0 rest]|];
        try discriminate Hrun;
        try (destruct ((0 <? _)%nat); [destruct (confirm _)|]);
        cbn in Hrun; injection Hrun as <-;
        cbn; destruct st; split_and!; try reflexivity; intros s [= ->]; reflexivity. }
    destruct Hrmw as (Hrmw & Hst & Hans).
    destruct (Hframe Hrmw) as (H1 & H2 & H3 & H4 & H5).
    split_and!; assumption.
  - intros t first rest -> Hq. subst m'. cbn [run] in Hrun.
    unfold App.startNew in Hrun. rewrite Hq in Hrun.
    injection Hrun as <-. reflexivity.
Qed.

(** Moving to question 3 in the sample quiz keeps the start time; continuing
    from the sample result view keeps the submission time. *)
Lemma metadata_writes_merge_except_startNew_witness :
  Storage.startedAt (Storage.loadMeta (App.disk (App.jumpTo "3" Samples.inProgress)))
    = Some 1000
  /\ Storage.submittedAt (Storage.loadMeta (App.disk Samples.resumed)) = Some 2000.
Proof.
  split.
  - destruct (metadata_writes_merge_except_startNew (JumpTo "3") Samples.inProgress
                (App.jumpTo "3" Samples.inProgress) eq_refl) as [Hmerge _].
    destruct (Hmerge eq_refl) as (_ & Hst & _).
    rewrite Hst; reflexivity.
  - destruct (metadata_writes_merge_except_startNew (Continue 3000) Samples.submitted
                Samples.resumed eq_refl) as [Hmerge _].
    destruct (Hmerge eq_refl) as (_ & _ & Hsu & _).
    rewrite Hsu; reflexivity.
Defined.

(** C3, counterexample. [StartNew] from the sample result view: [submittedAt]
    is not among the fields of the literal that [startNew] saves, yet its
    persisted value 2000 is not kept, so the record on disk is not the loaded
    record overlaid with those fields. *)
Lemma startNew_overwrites_without_reading :
  exists w',
    run (StartNew 3000) Samples.submitted = Some w'
    /\ Storage.p_submittedAt (written (StartNew 3000) Samples.submitted) = None
    /\ Storage.submittedAt (Storage.loadMeta (App.disk Samples.submitted)) = Some 2000
    /\ Storage.submittedAt (Storage.loadMeta (App.disk w')) = None
    /\ ~ read_merge_write (App.disk Samples.submitted) (App.disk w')
           (written (StartNew 3000) Samples.submitted).
Proof.
  eexists. split; [reflexivity|]. split_and!; try reflexivity.
  unfold read_merge_write. intros H.
  apply (f_equal Storage.submittedAt) in H. vm_compute in H. discriminate H.
Qed.

(** ** Elapsed time *)

(** C8 (as amended). Elapsed time is never negative and is 0 without a start
    time. With [startedAt] set to a non-zero time it is
    [max(0, now - startedAt)] while the view is not [result]; while the view
    is [result] and [submittedAt] is set to a non-zero time it is
    [max(0, submittedAt - startedAt)] whatever [now] is. For fixed metadata
    and view it never decreases as [now] advances. *)
Theorem elapsedMs_frozen_in_result_view
    (startedAt submittedAt : option Z) (view : QuizView) (now : Z) :
  0 <= App.elapsedMs startedAt submittedAt view now
  /\ (JsNumber.truthy startedAt = false -> App.elapsedMs startedAt submittedAt view now = 0)
  /\ (forall s, startedAt = Some s -> s <> 0 -> view <> ViewResult ->
        App.elapsedMs startedAt submittedAt view now = Z.max 0 (now - s))
  /\ (forall s e, startedAt = Some s -> s <> 0 -> submittedAt = Some e -> e <> 0 ->
        view = ViewResult ->
        forall now', App.elapsedMs startedAt submittedAt view now' = Z.max 0 (e - s))
  /\ (forall now', now <= now' ->
        App.elapsedMs startedAt submittedAt view now
        <= App.elapsedMs startedAt submittedAt view now').
Proof.
  unfold App.elapsedMs. split_and!.
  - destruct (negb _); [lia|]. destruct (_ && _); lia.
  - now intros ->.
  - intros s -> Hs Hv. simpl.
    rewrite (proj2 (Z.eqb_neq s 0) Hs). simpl.
    now rewrite bool_decide_eq_false_2.
  - intros s e -> Hs -> He -> now'. simpl.
    rewrite (proj2 (Z.eqb_neq s 0) Hs), (proj2 (Z.eqb_neq e 0) He). reflexivity.
  - intros now' Hle. destruct (negb _); [lia|]. destruct (_ && _); lia.
Qed.

(** A quiz started at 1000 and submitted at 2000: 500 ms into the quiz the
    clock shows 500; in the result view it shows 1000 at any later time. *)
Lemma elapsedMs_frozen_in_result_view_witness :
  App.elapsedMs (Some 1000) None ViewQuiz 1500 = 500
  /\ App.elapsedMs (Some 1000) (Some 2000) ViewResult 9000 = 1000.
Proof.
  split.
  - destruct (elapsedMs_frozen_in_result_view (Some 1000) None ViewQuiz 1500)
      as (_ & _ & Hrun & _).
    rewrite (Hrun 1000); [reflexivity | reflexivity | lia | discriminate].
  - destruct (elapsedMs_frozen_in_result_view (Some 1000) (Some 2000) ViewResult 0)
      as (_ & _ & _ & Hfrozen & _).
    rewrite (Hfrozen 1000 2000); [reflexivity | reflexivity | lia | reflexivity | lia
                                  | reflexivity].
Defined.

(** C8, counterexample. The sample quiz was started at 1000 and submitted at
    2000, and the user went back to the quiz with "continue": [submittedAt]
    is still set, the view is [quiz], and the elapsed time is neither
    [max(0, submittedAt - startedAt)] nor constant in [now]. *)
Lemma elapsed_ticks_again_after_continue :
  Storage.startedAt (Storage.loadMeta (App.disk Samples.resumed)) = Some 1000
  /\ Storage.submittedAt (Storage.loadMeta (App.disk Samples.resumed)) = Some 2000
  /\ App.view (App.ui Samples.resumed) = ViewQuiz
  /\ App.elapsed (App.tick 5000 Samples.resumed) = 4000
  /\ App.elapsed (App.tick 6000 Samples.resumed) = 5000
  /\ App.elapsed (App.tick 5000 Samples.resumed) <> Z.max 0 (2000 - 1000)
  /\ App.elapsed (App.tick 5000 Samples.resumed)
     <> App.elapsed (App.tick 6000 Samples.resumed).
Proof. split_and!; try reflexivity; vm_compute; discriminate. Qed.

(** ** Score and percentage *)

Lemma count_fold {A} (p : A -> bool) (l : list A) (n : nat) :
  foldl (fun c x => if p x then S c else c) n l = (n + List.length (List.filter p l))%nat.
Proof.
  revert n. induction l as [|x l IH]; intros n; simpl; [lia|].
  rewrite IH. destruct (p x); simpl; lia.
Qed.

Lemma filter_length_bound {A} (p : A -> bool) (l : list A) :
  (List.length (List.filter p l) <= List.length l)%nat.
Proof. induction l as [|x l IH]; simpl; [lia|]. destruct (p x); simpl; lia. Qed.

Lemma roundingExactUpTo_sound (bound c t : nat) :
  roundingExactUpTo bound = true ->
  (1 <= t <= bound)%nat -> (c <= t)%nat ->
  JsNumber.Math_round (scaledRatio c t) = JsNumber.ofZ (exactTenths c t).
Proof.
  unfold roundingExactUpTo. intros Hall Ht Hc.
  rewrite forallb_forall in Hall.
  specialize (Hall t). rewrite forallb_forall in Hall.
  eapply bool_decide_eq_true_1, Hall; apply in_seq; lia.
Qed.

(** [Math.round((c / t) * 1000)] is the exact rounding for every dataset of
    fewer than 400 questions: all 80199 pairs are evaluated. *)
Lemma rounding_exact_below_400 : roundingExactUpTo 399 = true.
Proof. vm_compute. reflexivity. Qed.

Lemma exactTenths_bounds (c t : nat) :
  (1 <= t)%nat -> (c <= t)%nat -> 0 <= exactTenths c t <= 1000.
Proof.
  intros Ht Hc. unfold exactTenths. split.
  - apply Z.div_pos; lia.
  - assert ((2000 * Z.of_nat c + Z.of_nat t) / (2 * Z.of_nat t) < 1001)
      by (apply Z.div_lt_upper_bound; lia).
    lia.
Qed.

(** Dividing an integer Number up to 1000 by 10 gives the Number nearest to
    the tenth of it. *)
Lemma tenth_is_nearest (k : Z) :
  0 <= k <= 1000 ->
  isNearest (JsNumber.div (JsNumber.ofZ k) (JsNumber.ofZ 10)) k 10 = true.
Proof.
  intros Hk.
  assert (Hall : forallb (fun n => isNearest (JsNumber.div (JsNumber.ofZ (Z.of_nat n))
                                                          (JsNumber.ofZ 10))
                                             (Z.of_nat n) 10)
                         (seq 0 1001) = true)
    by (vm_compute; reflexivity).
  rewrite forallb_forall in Hall.
  specialize (Hall (Z.to_nat k)). rewrite Z2Nat.id in Hall by lia.
  apply Hall, in_seq. lia.
Qed.

Lemma percent_nearest_below_400 (c t : nat) :
  (1 <= t < 400)%nat -> (c <= t)%nat ->
  isNearest (App.percent {| App.correct := c; App.total := t |}) (exactTenths c t) 10 = true.
Proof.
  intros Ht Hc. unfold App.percent. cbn [App.correct App.total].
  destruct (Nat.eqb_spec t 0); [lia|].
  fold (scaledRatio c t).
  rewrite (roundingExactUpTo_sound 399) by (apply rounding_exact_below_400 || lia).
  apply tenth_is_nearest, exactTenths_bounds; lia.
Qed.

(** C6 (as amended). On a loaded dataset the score counts the questions on
    which [isCorrect] holds, over the number of questions, so
    [0 <= correct <= total]. For every dataset of fewer than 400 questions
    the percentage shown is the binary64 number nearest to
    [round(1000 * correct / total) / 10], the rounding taken over the
    rationals with halves upwards: 7 of 10 gives the number 70 and 1 of 3 the
    number written 33.3. *)
Theorem score_bounds_and_percent (s : App.State) (qs : list Question) :
  App.questions s = Some qs ->
  qs <> [] ->
  let sc := App.score s in
  App.correct sc = correctAnswers qs (App.answers s)
  /\ App.total sc = List.length qs
  /\ (0 <= App.correct sc <= App.total sc)%nat
  /\ ((List.length qs < 400)%nat ->
        isNearest (App.percent sc) (exactTenths (App.correct sc) (App.total sc)) 10 = true)
  /\ (App.correct sc = 7%nat -> App.total sc = 10%nat ->
        App.percent sc = S754_finite false 4925812092436480 (-46))
  /\ (App.correct sc = 1%nat -> App.total sc = 3%nat ->
        App.percent sc = S754_finite false 4686558362232422 (-47)).
Proof.
  intros Hq Hne sc. subst sc. unfold App.score. rewrite Hq.
  cbn [App.correct App.total]. rewrite count_fold. fold (correctAnswers qs (App.answers s)).
  assert (Hlen : List.length qs <> 0%nat) by now destruct qs.
  assert (Hbound : (correctAnswers qs (App.answers s) <= List.length qs)%nat)
    by apply filter_length_bound.
  split_and!.
  - reflexivity.
  - reflexivity.
  - lia.
  - exact Hbound.
  - intros Hsmall.
    exact (percent_nearest_below_400 (correctAnswers qs (App.answers s)) (List.length qs)
             ltac:(lia) Hbound).
  - cbn. intros -> ->. reflexivity.
  - cbn. intros -> ->. reflexivity.
Qed.

(** The sample quiz has one correct answer out of three: the percentage is
    the number nearest to 33.3. *)
Lemma score_bounds_and_percent_witness :
  App.score (App.ui Samples.inProgress) = {| App.correct := 1; App.total := 3 |}
  /\ App.percent (App.score (App.ui Samples.inProgress))
     = S754_finite false 4686558362232422 (-47)
  /\ isNearest (App.percent (App.score (App.ui Samples.inProgress))) 333 10 = true.
Proof.
  destruct (score_bounds_and_percent (App.ui Samples.inProgress)
              [Samples.q1; Samples.q2; Samples.q3] eq_refl)
    as (_ & _ & _ & Hnear & _ & H33); [discriminate|].
  split_and!; [reflexivity | apply H33; reflexivity |].
  apply Hnear. cbn. lia.
Defined.

(** C6, counterexample. On a dataset of 400 questions of which 201 are
    answered correctly, [round(1000 * 201 / 400) / 10] is 50.3: the exact
    value 502.5 rounds to 503. The Number [(201 / 400) * 1000] is just below
    502.5, [Math.round] gives 502, and the percentage shown is the number
    nearest to 50.2, not the one nearest to 50.3. *)
Lemma percent_201_of_400_differs :
  App.questions (App.ui Samples.large) = Some Samples.qs400
  /\ List.length Samples.qs400 = 400%nat
  /\ App.score (App.ui Samples.large) = {| App.correct := 201; App.total := 400 |}
  /\ exactTenths 201 400 = 503
  /\ 2 * (1000 * 201) = 1005 * 400
  /\ App.percent (App.score (App.ui Samples.large))
     = S754_finite false 7065021915437466 (-47)
  /\ isNearest (App.percent (App.score (App.ui Samples.large))) 502 10 = true
  /\ isNearest (App.percent (App.score (App.ui Samples.large))) 503 10 = false.
Proof. split_and!; vm_compute; reflexivity. Qed.

(** The Number written 70.0 is the integer 70. *)
Example nearest_700_10 :
  nearest 700 10 = JsNumber.ofZ 70
  /\ JsNumber.ofZ 70 = S754_finite false 4925812092436480 (-46)
  /\ 4925812092436480 = 70 * 2 ^ 46.
Proof. split_and!; reflexivity. Qed.

(** * Further properties of the code *)

(** ** Trimming, and scoring on trimmed text *)

Lemma trimEnd_idempotent s : trimEnd (trimEnd s) = trimEnd s.
Proof.
  induction s as [|c r IH]; simpl; [reflexivity|].
  destruct (trimEnd r) as [|c' r'] eqn:Er.
  - destruct (isWhiteSpace c) eqn:Ec; simpl; [reflexivity|]. now rewrite Ec.
  - change (trimEnd (String c (String c' r')) = String c (String c' r')).
    simpl in IH |- *. destruct (trimEnd r'); now rewrite IH.
Qed.

Lemma trimStart_head s :
  match trimStart s with
  | EmptyString => True
  | String c _ => isWhiteSpace c = false
  end.
Proof.
  induction s as [|c r IH]; simpl; [exact I|].
  destruct (isWhiteSpace c) eqn:Ec; [exact IH|exact Ec].
Qed.

Lemma trim_head s :
  match trim s with
  | EmptyString => True
  | String c _ => isWhiteSpace c = false
  end.
Proof.
  unfold trim. pose proof (trimStart_head s) as H.
  destruct (trimStart s) as [|c r]; simpl; [exact I|].
  destruct (trimEnd r); [rewrite H|]; assumption.
Qed.

Lemma trimStart_decompose s : exists l, blank l = true /\ s = l ++ trimStart s.
Proof.
  induction s as [|c r (l & Hl & E)]; simpl.
  - now exists "".
  - destruct (isWhiteSpace c) eqn:Ec.
    + exists (String c l). simpl. rewrite Ec, Hl. split; [reflexivity|].
      exact (f_equal (String c) E).
    + now exists "".
Qed.

Lemma trimEnd_decompose s : exists r, blank r = true /\ s = trimEnd s ++ r.
Proof.
  induction s as [|c t (r & Hr & E)]; simpl.
  - now exists "".
  - destruct (trimEnd t) as [|c' t'] eqn:Et.
    + destruct (isWhiteSpace c) eqn:Ec.
      * exists (String c r). simpl. rewrite Ec, Hr. split; [reflexivity|].
        exact (f_equal (String c) E).
      * exists r. split; [assumption|]. exact (f_equal (String c) E).
    + exists r. split; [assumption|]. exact (f_equal (String c) E).
Qed.

Lemma trim_trim s : trim (trim s) = trim s.
Proof.
  pose proof (trim_head s) as H. unfold trim at 1.
  destruct (trim s) as [|c r] eqn:Et; [reflexivity|].
  simpl trimStart. rewrite H. rewrite <- Et. unfold trim. apply trimEnd_idempotent.
Qed.

Lemma blank_trim s : blank (trim s) = blank s.
Proof.
  destruct (blank s) eqn:Eb.
  - apply trim_empty_iff in Eb. now rewrite Eb.
  - destruct (blank (trim s)) eqn:Eb'; [|reflexivity].
    apply trim_empty_iff in Eb'. rewrite trim_trim in Eb'.
    apply trim_empty_iff in Eb'. congruence.
Qed.

(** [trim] only removes white space at the two ends: the text is what
    [trim] returns with white space before and after it. What it returns
    does not start with white space, and trimming it again changes
    nothing. *)
Theorem trim_removes_surrounding_white_space (s : string) :
  (exists l r, blank l = true /\ blank r = true /\ s = l ++ trim s ++ r)
  /\ (forall c t, trim s = String c t -> isWhiteSpace c = false)
  /\ trim (trim s) = trim s
  /\ blank (trim s) = blank s.
Proof.
  split_and!.
  - destruct (trimStart_decompose s) as (l & Hl & El).
    destruct (trimEnd_decompose (trimStart s)) as (r & Hr & Er).
    exists l, r. split_and!; try assumption.
    unfold trim. now rewrite <- Er.
  - intros c t Et. pose proof (trim_head s) as H. now rewrite Et in H.
  - apply trim_trim.
  - apply blank_trim.
Qed.

Lemma isCorrect_trimmed q s : isCorrect q (trim s) = isCorrect q s.
Proof.
  now rewrite !isCorrect_unfold, trim_trim, blank_trim.
Qed.

Lemma toUpperCase_empty s : toUpperCase s = [] <-> s = "".
Proof.
  destruct s as [|c r]; simpl; split; try congruence.
  intros E. apply app_eq_nil in E as [E _]. now apply toUpper_nonempty in E.
Qed.

Lemma normalizeChoice_empty s : normalizeChoice s = [] <-> blank s = true.
Proof. unfold normalizeChoice. now rewrite toUpperCase_empty, trim_empty_iff. Qed.

Lemma normalizeChoice_blank s t :
  normalizeChoice t = normalizeChoice s -> blank t = blank s.
Proof.
  intros E. destruct (blank s) eqn:Es.
  - apply normalizeChoice_empty. rewrite E. now apply normalizeChoice_empty.
  - destruct (blank t) eqn:Et; [|reflexivity].
    apply normalizeChoice_empty in Et. rewrite E in Et.
    apply normalizeChoice_empty in Et. congruence.
Qed.

(** X1. [isCorrect] only looks at the normal form of an answer. Trimming is
    idempotent and is absorbed by the multiple-choice normal form, and so is
    lower-casing the answer first; the normal form is empty exactly for a
    blank answer; two answers with the same normal form score alike, for
    either question type; and the fill-in normal form is the answer itself
    without the white space around it. *)
Theorem normalizers_are_canonical (s : string) :
  normalizeFill (normalizeFill s) = normalizeFill s
  /\ normalizeChoice (normalizeFill s) = normalizeChoice s
  /\ normalizeChoice (toLowerCase s) = normalizeChoice s
  /\ (normalizeChoice s = [] <-> blank s = true)
  /\ (normalizeFill s = "" <-> blank s = true)
  /\ (forall q, isCorrect q (normalizeFill s) = isCorrect q s)
  /\ (forall q t, questionType q = MultipleChoice ->
        normalizeChoice t = normalizeChoice s -> isCorrect q t = isCorrect q s)
  /\ (forall q t, questionType q = FillInTheBlank ->
        normalizeFill t = normalizeFill s -> isCorrect q t = isCorrect q s)
  /\ (exists l r, blank l = true /\ blank r = true /\ s = l ++ normalizeFill s ++ r).
Proof.
  split_and!.
  - apply trim_trim.
  - unfold normalizeFill, normalizeChoice. now rewrite trim_trim.
  - unfold normalizeChoice. now rewrite trim_toLowerCase, toUpperCase_toLowerCase.
  - apply normalizeChoice_empty.
  - apply trim_empty_iff.
  - intros q. apply isCorrect_trimmed.
  - intros q t Hq E. rewrite !isCorrect_unfold, Hq.
    fold (normalizeChoice t) (normalizeChoice s).
    now rewrite E, (normalizeChoice_blank s t E).
  - intros q t Hq E. unfold normalizeFill in E. rewrite !isCorrect_unfold, Hq, E.
    f_equal. f_equal. rewrite <- (blank_trim t), E. apply blank_trim.
  - destruct (trimStart_decompose s) as (l & Hl & El).
    destruct (trimEnd_decompose (trimStart s)) as (r & Hr & Er).
    exists l, r. split_and!; try assumption.
    unfold normalizeFill, trim. now rewrite <- Er.
Qed.

(** The normal form of [ stra<sharp s>e] followed by a tab is [STRASSE]. *)
Example normalizeChoice_sharp_s :
  normalizeChoice (" stra" ++ String (ascii_of_N 223) ("e" ++ String (ascii_of_N 9) ""))
  = [83; 84; 82; 65; 83; 83; 69]%N
  /\ normalizeChoice "STRASSE" = [83; 84; 82; 65; 83; 83; 69]%N.
Proof. split; reflexivity. Qed.

(** X2. The canonical answer itself is scored correct exactly when it is not
    blank, for both question types; a question whose canonical answer is
    blank cannot be answered correctly by any text. *)
Theorem isCorrect_canonical_answer (q : Question) :
  isCorrect q (answer q) = negb (blank (answer q))
  /\ (blank (answer q) = true -> forall s, isCorrect q s = false).
Proof.
  split.
  - rewrite isCorrect_unfold.
    destruct (questionType q); rewrite bool_decide_eq_true_2 by reflexivity;
      apply andb_true_r.
  - intros Hb s. rewrite isCorrect_unfold.
    destruct (blank s) eqn:Es; [reflexivity|]. simpl.
    apply trim_empty_iff in Hb. rewrite Hb.
    assert (Hs : trim s <> "").
    { intros E. apply trim_empty_iff in E. congruence. }
    destruct (questionType q); apply bool_decide_eq_false_2; simpl.
    + intros E. now apply toUpperCase_empty in E.
    + assumption.
Qed.

(** A question without a canonical answer rejects every answer. *)
Lemma isCorrect_canonical_answer_witness :
  isCorrect (Samples.mc "9" "  ") "A" = false
  /\ isCorrect (Samples.fill "2" "Paris") "Paris" = true.
Proof.
  split.
  - apply (proj2 (isCorrect_canonical_answer (Samples.mc "9" "  "))). reflexivity.
  - exact (proj1 (isCorrect_canonical_answer (Samples.fill "2" "Paris"))).
Defined.

(** ** Progress counter and grids *)

Section GridFacts.

Import App Render.

Lemma filter_split_length {A} (p : A -> bool) (l : list A) :
  (List.length (List.filter p l) + List.length (List.filter (fun x => negb (p x)) l)
   = List.length l)%nat.
Proof. induction l as [|x l IH]; simpl; [reflexivity|]. destruct (p x); simpl; lia. Qed.

(** Counting the items of a grid whose class does not depend on the index. *)
Lemma imap_filter_length {A B} (g : nat -> A -> B) (p : B -> bool) (l : list A) :
  (forall i x, p (g i x) = p (g 0%nat x)) ->
  List.length (List.filter p (imap g l))
  = List.length (List.filter (fun x => p (g 0%nat x)) l).
Proof.
  revert g. induction l as [|x l IH]; intros g Hg; [reflexivity|].
  cbn [imap List.filter].
  assert (E : List.length (List.filter p (imap (g ∘ S) l))
              = List.length (List.filter (fun x => p (g 0%nat x)) l)).
  { rewrite IH.
    - f_equal. apply filter_ext. intros y. apply Hg.
    - intros i y. unfold compose. now rewrite !(Hg (S _)). }
  destruct (p (g 0%nat x)); simpl; now rewrite E.
Qed.

Lemma isCorrect_blank q s : blank s = true -> isCorrect q s = false.
Proof. intros Hb. now rewrite isCorrect_unfold, Hb. Qed.

End GridFacts.

(** X3. The progress counter and the submit warning add up: the number of
    answered questions shown as progress plus the number of unanswered
    questions that [submit] puts in its warning is the number of questions;
    so the counter never exceeds the total, and [submit] asks exactly when
    the counter is below the total. *)
Theorem answeredCount_complements_unanswered (s : App.State) (qs : list Question) :
  App.questions s = Some qs ->
  (App.answeredCount s + List.length (App.unanswered qs (App.answers s))
   = List.length qs)%nat
  /\ (App.answeredCount s <= List.length qs)%nat
  /\ (forall confirm t1 t2 d,
        snd (App.submit confirm t1 t2 {| App.ui := s; App.disk := d |}) = []
        <-> App.answeredCount s = List.length qs).
Proof.
  intros Hq.
  assert (E : (App.answeredCount s + List.length (App.unanswered qs (App.answers s))
               = List.length qs)%nat).
  { unfold App.answeredCount, App.unanswered. rewrite Hq, count_fold. simpl.
    apply filter_split_length. }
  split_and!; [exact E | lia |].
  intros confirm t1 t2 d. unfold App.submit. cbn [App.ui]. rewrite Hq.
  destruct (List.length (App.unanswered qs (App.answers s))) as [|n] eqn:En.
  - simpl. split; [lia|reflexivity].
  - simpl. destruct (confirm _); simpl; split; (discriminate || lia).
Qed.

(** The sample quiz: one of three answered, two in the warning. *)
Lemma answeredCount_complements_unanswered_witness :
  App.answeredCount (App.ui Samples.inProgress) = 1%nat
  /\ List.length (App.unanswered [Samples.q1; Samples.q2; Samples.q3]
                    (App.answers (App.ui Samples.inProgress))) = 2%nat.
Proof.
  pose proof (answeredCount_complements_unanswered (App.ui Samples.inProgress) _ eq_refl)
    as (Hsum & _).
  split; [reflexivity|].
  change (App.answeredCount (App.ui Samples.inProgress)) with 1%nat in Hsum.
  simpl List.length in Hsum at 2. lia.
Defined.

(** X4. The result grid agrees with the score: it has one cell per question,
    in order, each of exactly one class; a cell is [unanswered] exactly when
    the answer is blank and [correct] exactly when [isCorrect] holds of the
    stored answer; the number of [correct] cells is the score, and the three
    classes add up to the total. *)
Theorem resultGrid_agrees_with_score (s : App.State) (qs : list Question) :
  App.questions s = Some qs ->
  let grid := Render.resultGrid qs (App.answers s) in
  List.length grid = List.length qs
  /\ (forall k q, qs !! k = Some q ->
        exists g, grid !! k = Some g
          /\ Render.item_id g = id q /\ Render.index g = k
          /\ (Render.className g = "unanswered"
                <-> blank (App.answerOf (App.answers s) (id q)) = true)
          /\ (Render.className g = "correct"
                <-> isCorrect q (App.answerOf (App.answers s) (id q)) = true)
          /\ (Render.className g = "wrong"
                <-> blank (App.answerOf (App.answers s) (id q)) = false
                    /\ isCorrect q (App.answerOf (App.answers s) (id q)) = false))
  /\ List.length (List.filter (Render.hasClass "correct") grid) = App.correct (App.score s)
  /\ List.length (List.filter (Render.hasClass "unanswered") grid)
     = blankAnswers qs (App.answers s)
  /\ (List.length (List.filter (Render.hasClass "correct") grid)
      + List.length (List.filter (Render.hasClass "wrong") grid)
      + List.length (List.filter (Render.hasClass "unanswered") grid) = List.length qs)%nat.
Proof.
  intros Hq grid. subst grid. unfold Render.resultGrid.
  set (cell := fun (i : nat) (qq : Question) => _).
  assert (Hcell : forall i q,
            let a := App.answerOf (App.answers s) (id q) in
            cell i q =
            if blank a
            then {| Render.item_id := id q; Render.index := i;
                    Render.className := "unanswered"; Render.mark := Render.NoMark |}
            else if isCorrect q a
                 then {| Render.item_id := id q; Render.index := i;
                         Render.className := "correct"; Render.mark := Render.CheckMark |}
                 else {| Render.item_id := id q; Render.index := i;
                         Render.className := "wrong"; Render.mark := Render.CrossMark |}).
  { intros i q a. subst cell a. cbv beta zeta.
    now rewrite truthy_trim, negb_involutive, isCorrect_trimmed. }
  assert (Hcount : forall c,
            List.length (List.filter (Render.hasClass c) (imap cell qs))
            = List.length (List.filter (fun q => Render.hasClass c (cell 0%nat q)) qs)).
  { intros c. apply imap_filter_length. intros i q. rewrite !Hcell.
    cbv zeta.
    now destruct (blank (App.answerOf (App.answers s) (id q))),
                 (isCorrect q (App.answerOf (App.answers s) (id q))). }
  assert (Hclass : forall q,
            let a := App.answerOf (App.answers s) (id q) in
            Render.hasClass "correct" (cell 0%nat q) = isCorrect q a
            /\ Render.hasClass "unanswered" (cell 0%nat q) = blank a
            /\ Render.hasClass "wrong" (cell 0%nat q) = negb (blank a) && negb (isCorrect q a)).
  { intros q a. rewrite Hcell. cbv zeta. fold a.
    destruct (blank a) eqn:Eb.
    - rewrite (isCorrect_blank q a Eb). now split_and!.
    - destruct (isCorrect q a); now split_and!. }
  split_and!.
  - apply length_imap.
  - intros k q Hk. exists (cell k q). rewrite list_lookup_imap, Hk. simpl.
    split; [reflexivity|]. rewrite Hcell. cbv zeta.
    set (a := App.answerOf (App.answers s) (id q)).
    destruct (blank a) eqn:Eb.
    + rewrite (isCorrect_blank q a Eb). simpl.
      split_and!; try reflexivity; (split; [try discriminate | try discriminate]);
        try tauto; intros [? _]; discriminate.
    + destruct (isCorrect q a) eqn:Ec; simpl;
        split_and!; try reflexivity; (split; [try discriminate | try discriminate]);
        try tauto; intros [_ ?]; discriminate.
  - rewrite Hcount. unfold App.score. rewrite Hq. cbn [App.correct]. rewrite count_fold.
    simpl. f_equal. apply filter_ext. intros q. apply Hclass.
  - rewrite Hcount. unfold blankAnswers. f_equal. apply filter_ext. intros q. apply Hclass.
  - rewrite !Hcount.
    rewrite (filter_ext _ (fun q => isCorrect q (App.answerOf (App.answers s) (id q))))
      by (intros q; apply Hclass).
    rewrite (filter_ext (fun q => Render.hasClass "wrong" _)
               (fun q => negb (blank (App.answerOf (App.answers s) (id q)))
                         && negb (isCorrect q (App.answerOf (App.answers s) (id q)))))
      by (intros q; apply Hclass).
    rewrite (filter_ext (fun q => Render.hasClass "unanswered" _)
               (fun q => blank (App.answerOf (App.answers s) (id q))))
      by (intros q; apply Hclass).
    clear. induction qs as [|q qs IH]; simpl; [reflexivity|].
    destruct (blank (App.answerOf (App.answers s) (id q))) eqn:Eb.
    + rewrite (isCorrect_blank q _ Eb). simpl. lia.
    + destruct (isCorrect q (App.answerOf (App.answers s) (id q))); simpl; lia.
Qed.

(** The sample quiz in the result grid: one correct cell, two unanswered. *)
Lemma resultGrid_agrees_with_score_witness :
  List.length (List.filter (Render.hasClass "correct")
                 (Render.resultGrid [Samples.q1; Samples.q2; Samples.q3]
                    (App.answers (App.ui Samples.inProgress)))) = 1%nat
  /\ List.length (List.filter (Render.hasClass "unanswered")
                    (Render.resultGrid [Samples.q1; Samples.q2; Samples.q3]
                       (App.answers (App.ui Samples.inProgress)))) = 2%nat.
Proof.
  destruct (resultGrid_agrees_with_score (App.ui Samples.inProgress) _ eq_refl)
    as (_ & _ & Hc & Hu & _).
  split; [rewrite Hc | rewrite Hu]; reflexivity.
Defined.

(** X5. The quiz grid has one cell per question, in order; a cell is
    [answered] exactly when the stored answer is not blank, and the number
    of [answered] cells is the progress counter. *)
Theorem gridItems_agree_with_progress (s : App.State) (qs : list Question) :
  App.questions s = Some qs ->
  let grid := Render.gridItems qs (App.answers s) in
  List.length grid = List.length qs
  /\ (forall k q, qs !! k = Some q ->
        exists g, grid !! k = Some g
          /\ Render.item_id g = id q /\ Render.index g = k
          /\ (Render.className g = "answered"
                <-> blank (App.answerOf (App.answers s) (id q)) = false))
  /\ List.length (List.filter (Render.hasClass "answered") grid) = App.answeredCount s.
Proof.
  intros Hq grid. subst grid. unfold Render.gridItems. split_and!.
  - apply length_imap.
  - intros k q Hk. eexists. rewrite list_lookup_imap, Hk. simpl.
    split; [reflexivity|]. simpl. rewrite truthy_trim.
    destruct (blank _); simpl; split_and!; try reflexivity; split; congruence.
  - rewrite imap_filter_length by reflexivity.
    unfold App.answeredCount. rewrite Hq, count_fold. simpl.
    f_equal. apply filter_ext. intros q. unfold Render.hasClass. simpl.
    now destruct (JsString.truthy _).
Qed.

(** The quiz grid of the sample quiz has one answered cell. *)
Lemma gridItems_agree_with_progress_witness :
  List.length (List.filter (Render.hasClass "answered")
                 (Render.gridItems [Samples.q1; Samples.q2; Samples.q3]
                    (App.answers (App.ui Samples.inProgress)))) = 1%nat.
Proof.
  destruct (gridItems_agree_with_progress (App.ui Samples.inProgress) _ eq_refl)
    as (_ & _ & Hc).
  rewrite Hc. reflexivity.
Defined.

(** ** The question on show and previous/next *)

Section NavigationFacts.

Import Storage App Render.

Lemma map_lookup {A B} (f : A -> B) (l : list A) (k : nat) :
  map f l !! k = f <$> l !! k.
Proof. revert k. induction l as [|x l IH]; intros [|k]; simpl; auto. Qed.

Lemma findIndexFrom_spec {A} (p : A -> bool) (k : Z) (l : list A) :
  0 <= k ->
  (findIndexFrom p k l = -1 /\ forall x, x ∈ l -> p x = false)
  \/ (exists n x, findIndexFrom p k l = k + Z.of_nat n
        /\ l !! n = Some x /\ p x = true
        /\ forall j y, (j < n)%nat -> l !! j = Some y -> p y = false).
Proof.
  revert k. induction l as [|x l IH]; intros k Hk; simpl.
  - left. split; [reflexivity|]. intros x Hx. now apply elem_of_nil in Hx.
  - destruct (p x) eqn:Ep.
    + right. exists 0%nat, x. split_and!; try done; lia.
    + destruct (IH (k + 1) ltac:(lia)) as [[E Hall]|(n & y & E & Hn & Hy & Hmin)].
      * left. split; [assumption|]. intros z [->|Hz]%elem_of_cons; auto.
      * right. exists (S n), y. split_and!; try done; try lia.
        intros [|j] z Hj Hz; simpl in Hz; [congruence|]. apply (Hmin j); [lia|assumption].
Qed.

Lemma at_in_range {A} (l : list A) (k : Z) :
  0 <= k < Z.of_nat (List.length l) -> exists x, at_ l k = Some x /\ l !! Z.to_nat k = Some x.
Proof.
  intros Hk. unfold at_. rewrite (proj2 (Z.ltb_ge k 0)) by lia.
  destruct (lookup_lt_is_Some_2 l (Z.to_nat k)) as [x Hx]; [lia|]. eauto.
Qed.

(** What [indexOf] returns on a loaded list: an index in range; the first
    index of the pointer's id when a question has it, and 0 otherwise. *)
Lemma indexOf_spec (qs : list Question) (pointer : string) :
  qs <> [] ->
  let k := indexOf (Some qs) pointer in
  0 <= k < Z.of_nat (List.length qs)
  /\ (pointer <> "" -> pointer ∈ map id qs ->
      exists q, qs !! Z.to_nat k = Some q /\ id q = pointer
        /\ forall j y, (j < Z.to_nat k)%nat -> qs !! j = Some y -> id y <> pointer)
  /\ (pointer = "" \/ pointer ∉ map id qs -> k = 0).
Proof.
  intros Hne k. subst k. unfold indexOf.
  assert (Hlen : 0 < Z.of_nat (List.length qs)) by (destruct qs; [congruence|simpl; lia]).
  destruct pointer as [|c r]; simpl.
  { split_and!; [lia | lia | congruence | reflexivity]. }
  unfold findIndex.
  destruct (findIndexFrom_spec (fun q => String.eqb (id q) (String c r)) 0 qs ltac:(lia))
    as [[E Hall]|(n & x & E & Hn & Hx & Hmin)]; rewrite E.
  - simpl. split_and!; [lia | lia | | reflexivity].
    intros _ Hin. exfalso.
    apply list_elem_of_In, in_map_iff in Hin as (q & Hq & Hin).
    apply list_elem_of_In, Hall in Hin. apply String.eqb_neq in Hin. congruence.
  - pose proof (lookup_lt_Some _ _ _ Hn) as Hlt.
    rewrite (proj2 (Z.leb_le 0 (0 + Z.of_nat n))) by lia.
    rewrite Z.add_0_l, Nat2Z.id. split_and!; [lia | lia | |].
    + intros _ _. exists x. split_and!; [assumption | now apply String.eqb_eq |].
      intros j y Hj Hy. apply String.eqb_neq. now apply (Hmin j).
    + intros [?|Hnot]; [congruence|]. exfalso. apply Hnot.
      apply String.eqb_eq in Hx. rewrite <- Hx.
      apply list_elem_of_In, in_map, list_elem_of_In. eapply list_elem_of_lookup_2, Hn.
Qed.

(** With pairwise distinct ids, the index of the k-th question's id is k. *)
Lemma indexOf_nth (qs : list Question) (k : nat) (q : Question) :
  NoDup (map id qs) -> id q <> "" -> qs !! k = Some q ->
  indexOf (Some qs) (id q) = Z.of_nat k.
Proof.
  intros Hnd Hid Hk.
  assert (Hne : qs <> []) by (intros ->; discriminate).
  assert (Hin : id q ∈ map id qs).
  { apply list_elem_of_In, in_map, list_elem_of_In. eapply list_elem_of_lookup_2, Hk. }
  destruct (indexOf_spec qs (id q) Hne) as (Hr & Hfound & _).
  destruct (Hfound Hid Hin) as (q' & Hq' & Eid & _).
  assert (E : Z.to_nat (indexOf (Some qs) (id q)) = k).
  { eapply NoDup_lookup; [exact Hnd | |].
    - rewrite map_lookup, Hq'. simpl. now rewrite Eid.
    - now rewrite map_lookup, Hk. }
  lia.
Qed.

(** The element at the index [indexOf] returns. *)
Lemma indexOf_shown (qs : list Question) (pointer : string) :
  qs <> [] ->
  0 <= indexOf (Some qs) pointer < Z.of_nat (List.length qs)
  /\ exists q, at_ qs (indexOf (Some qs) pointer) = Some q
       /\ (pointer <> "" -> pointer ∈ map id qs -> id q = pointer)
       /\ (pointer = "" \/ pointer ∉ map id qs -> qs !! 0%nat = Some q).
Proof.
  intros Hne. destruct (indexOf_spec qs pointer Hne) as (Hr & Hfound & Hzero).
  split; [exact Hr|].
  destruct (at_in_range qs _ Hr) as (q & Hat & Hlook). exists q.
  split_and!; [assumption | |].
  - intros H1 H2. destruct (Hfound H1 H2) as (q' & Hq' & E & _). congruence.
  - intros H0. rewrite (Hzero H0) in Hlook. exact Hlook.
Qed.

End NavigationFacts.

(** X6. On a loaded, non-empty dataset the page always has a question to
    show: [currentIndex] and [reviewIndex] are within the list, and the
    question at that index is the first one with the pointer's id when the
    pointer names a question; a pointer that is empty or names no question
    shows the first question. Before the dataset is loaded both are 0. *)
Theorem shown_question_exists (s : App.State) (qs : list Question) :
  App.questions s = Some qs ->
  qs <> [] ->
  (0 <= Render.currentIndex s < Z.of_nat (List.length qs)
   /\ exists q, Render.shown s (Render.currentIndex s) = Some q
        /\ (App.currentId s <> "" -> App.currentId s ∈ map id qs -> id q = App.currentId s)
        /\ (App.currentId s = "" \/ App.currentId s ∉ map id qs -> qs !! 0%nat = Some q))
  /\ (0 <= Render.reviewIndex s < Z.of_nat (List.length qs)
   /\ exists q, Render.shown s (Render.reviewIndex s) = Some q
        /\ (App.reviewId s <> "" -> App.reviewId s ∈ map id qs -> id q = App.reviewId s)
        /\ (App.reviewId s = "" \/ App.reviewId s ∉ map id qs -> qs !! 0%nat = Some q)).
Proof.
  intros Hq Hne.
  unfold Render.currentIndex, Render.reviewIndex, Render.shown. rewrite Hq.
  split; now apply indexOf_shown.
Qed.

(** Over storage of another dataset version the unknown pointer 77 falls on
    the first question. *)
Lemma shown_question_exists_witness :
  Render.currentIndex (App.setCurrentId "77" (App.ui Samples.inProgress)) = 0
  /\ Render.currentIndex (App.ui Samples.inProgress) = 1.
Proof.
  destruct (shown_question_exists (App.setCurrentId "77" (App.ui Samples.inProgress))
              [Samples.q1; Samples.q2; Samples.q3] eq_refl) as [[Hr _] _]; [discriminate|].
  split; reflexivity.
Defined.

(** X7. With pairwise distinct ids, "next" on the quiz page moves to the
    following question and "previous" to the preceding one, both stopping at
    the ends of the list (the index is clamped, so neither throws); the new
    pointer is persisted, and nothing else of the session changes. *)
Theorem quiz_prev_next_step (w : App.World) (qs : list Question) :
  App.questions (App.ui w) = Some qs ->
  NoDup (map id qs) ->
  Forall (fun q => id q <> "") qs ->
  App.currentId (App.ui w) ∈ map id qs ->
  let k := Render.currentIndex (App.ui w) in
  (exists w', Render.onNext w = Some w'
     /\ Render.currentIndex (App.ui w') = Z.min (Z.of_nat (List.length qs) - 1) (k + 1)
     /\ Storage.currentId (Storage.loadMeta (App.disk w')) = Some (App.currentId (App.ui w'))
     /\ (Render.canNext qs k = false -> App.currentId (App.ui w') = App.currentId (App.ui w))
     /\ App.answers (App.ui w') = App.answers (App.ui w)
     /\ App.view (App.ui w') = App.view (App.ui w)
     /\ App.reviewId (App.ui w') = App.reviewId (App.ui w))
  /\ (exists w', Render.onPrev w = Some w'
     /\ Render.currentIndex (App.ui w') = Z.max 0 (k - 1)
     /\ Storage.currentId (Storage.loadMeta (App.disk w')) = Some (App.currentId (App.ui w'))
     /\ (Render.canPrev k = false -> App.currentId (App.ui w') = App.currentId (App.ui w))
     /\ App.answers (App.ui w') = App.answers (App.ui w)
     /\ App.view (App.ui w') = App.view (App.ui w)
     /\ App.reviewId (App.ui w') = App.reviewId (App.ui w)).
Proof.
  intros Hq Hnd Hids Hin k.
  assert (Hne : qs <> []) by (intros ->; now apply elem_of_nil in Hin).
  assert (Hcur : App.currentId (App.ui w) <> "").
  { apply list_elem_of_In, in_map_iff in Hin as (q & <- & Hin).
    rewrite List.Forall_forall in Hids. now apply Hids. }
  assert (Ek : k = Render.indexOf (Some qs) (App.currentId (App.ui w))).
  { subst k. unfold Render.currentIndex. now rewrite Hq. }
  destruct (indexOf_spec qs (App.currentId (App.ui w)) Hne) as (Hr & Hfound & _).
  destruct (Hfound Hcur Hin) as (qk & Hqk & Eqk & _).
  rewrite <- Ek in Hr, Hqk. clearbody k.
  assert (Hmove : forall j : Z, 0 <= j < Z.of_nat (List.length qs) ->
            exists q, Render.at_ qs j = Some q
              /\ Render.currentIndex (App.ui (App.jumpTo (id q) w)) = j
              /\ (j = k -> id q = App.currentId (App.ui w))).
  { intros j Hj. destruct (at_in_range qs j Hj) as (q & Hat & Hlook).
    exists q. split_and!; [assumption | |].
    - unfold Render.currentIndex. cbn [App.jumpTo App.ui App.setCurrentId
        App.questions App.currentId]. rewrite Hq.
      rewrite (indexOf_nth qs (Z.to_nat j) q); [lia | assumption | | assumption].
      rewrite List.Forall_forall in Hids. apply Hids, list_elem_of_In.
      eapply list_elem_of_lookup_2, Hlook.
    - intros ->. congruence. }
  split.
  - destruct (Hmove (Z.min (Z.of_nat (List.length qs) - 1) (k + 1))) as (q & Hat & Hidx & Hsame);
      [lia|].
    exists (App.jumpTo (id q) w). unfold Render.onNext. rewrite Hq.
    unfold Render.currentIndex. rewrite Hq, <- Ek, Hat. simpl.
    split_and!; try reflexivity; [exact Hidx|].
    unfold Render.canNext. intros Hc%Z.ltb_ge. apply Hsame. lia.
  - destruct (Hmove (Z.max 0 (k - 1))) as (q & Hat & Hidx & Hsame); [lia|].
    exists (App.jumpTo (id q) w). unfold Render.onPrev, Render.shown. rewrite Hq.
    unfold Render.currentIndex. rewrite Hq, <- Ek, Hat. simpl.
    split_and!; try reflexivity; [exact Hidx|].
    unfold Render.canPrev. intros Hc%Z.ltb_ge. apply Hsame. lia.
Qed.

(** "Next" on question 2 of the sample quiz shows question 3, "next" again
    stays there. *)
Lemma quiz_prev_next_step_witness :
  Render.onNext Samples.inProgress = Some (App.jumpTo "3" Samples.inProgress)
  /\ Render.currentIndex (App.ui (App.jumpTo "3" Samples.inProgress)) = 2
  /\ Render.onNext (App.jumpTo "3" Samples.inProgress)
     = Some (App.jumpTo "3" (App.jumpTo "3" Samples.inProgress)).
Proof.
  assert (Hnd : NoDup (map id [Samples.q1; Samples.q2; Samples.q3])).
  { apply (bool_decide_unpack _). vm_compute. exact I. }
  assert (Hids : Forall (fun q => id q <> "") [Samples.q1; Samples.q2; Samples.q3]).
  { repeat constructor; discriminate. }
  assert (Hin : App.currentId (App.ui Samples.inProgress)
                ∈ map id [Samples.q1; Samples.q2; Samples.q3]).
  { apply (bool_decide_unpack _). vm_compute. exact I. }
  destruct (quiz_prev_next_step Samples.inProgress _ eq_refl Hnd Hids Hin)
    as [(w' & Hn & Hk & _) _].
  split_and!; vm_compute; reflexivity.
Defined.

(** X8. With pairwise distinct ids, "next" on the result page moves the
    review to the following question and "previous" to the preceding one,
    both stopping at the ends of the list; the new review pointer is
    persisted, and the quiz pointer, the answers and the view stay. *)
Theorem review_prev_next_step (w : App.World) (qs : list Question) :
  App.questions (App.ui w) = Some qs ->
  NoDup (map id qs) ->
  Forall (fun q => id q <> "") qs ->
  App.reviewId (App.ui w) ∈ map id qs ->
  let k := Render.reviewIndex (App.ui w) in
  (exists w', Render.onReviewNext w = Some w'
     /\ Render.reviewIndex (App.ui w') = Z.min (Z.of_nat (List.length qs) - 1) (k + 1)
     /\ Storage.reviewId (Storage.loadMeta (App.disk w')) = Some (App.reviewId (App.ui w'))
     /\ (Render.canNext qs k = false -> App.reviewId (App.ui w') = App.reviewId (App.ui w))
     /\ App.answers (App.ui w') = App.answers (App.ui w)
     /\ App.view (App.ui w') = App.view (App.ui w)
     /\ App.currentId (App.ui w') = App.currentId (App.ui w))
  /\ (exists w', Render.onReviewPrev w = Some w'
     /\ Render.reviewIndex (App.ui w') = Z.max 0 (k - 1)
     /\ Storage.reviewId (Storage.loadMeta (App.disk w')) = Some (App.reviewId (App.ui w'))
     /\ (Render.canPrev k = false -> App.reviewId (App.ui w') = App.reviewId (App.ui w))
     /\ App.answers (App.ui w') = App.answers (App.ui w)
     /\ App.view (App.ui w') = App.view (App.ui w)
     /\ App.currentId (App.ui w') = App.currentId (App.ui w)).
Proof.
  intros Hq Hnd Hids Hin k.
  assert (Hne : qs <> []) by (intros ->; now apply elem_of_nil in Hin).
  assert (Hcur : App.reviewId (App.ui w) <> "").
  { apply list_elem_of_In, in_map_iff in Hin as (q & <- & Hin).
    rewrite List.Forall_forall in Hids. now apply Hids. }
  assert (Ek : k = Render.indexOf (Some qs) (App.reviewId (App.ui w))).
  { subst k. unfold Render.reviewIndex. now rewrite Hq. }
  destruct (indexOf_spec qs (App.reviewId (App.ui w)) Hne) as (Hr & Hfound & _).
  destruct (Hfound Hcur Hin) as (qk & Hqk & Eqk & _).
  rewrite <- Ek in Hr, Hqk. clearbody k.
  assert (Hmove : forall j : Z, 0 <= j < Z.of_nat (List.length qs) ->
            exists q, Render.at_ qs j = Some q
              /\ Render.reviewIndex (App.ui (App.jumpReview (id q) w)) = j
              /\ (j = k -> id q = App.reviewId (App.ui w))).
  { intros j Hj. destruct (at_in_range qs j Hj) as (q & Hat & Hlook).
    exists q. split_and!; [assumption | |].
    - unfold Render.reviewIndex. cbn [App.jumpReview App.ui App.setReviewId
        App.questions App.reviewId]. rewrite Hq.
      rewrite (indexOf_nth qs (Z.to_nat j) q); [lia | assumption | | assumption].
      rewrite List.Forall_forall in Hids. apply Hids, list_elem_of_In.
      eapply list_elem_of_lookup_2, Hlook.
    - intros ->. congruence. }
  split.
  - destruct (Hmove (Z.min (Z.of_nat (List.length qs) - 1) (k + 1))) as (q & Hat & Hidx & Hsame);
      [lia|].
    exists (App.jumpReview (id q) w). unfold Render.onReviewNext. rewrite Hq.
    unfold Render.reviewIndex. rewrite Hq, <- Ek, Hat. simpl.
    split_and!; try reflexivity; [exact Hidx|].
    unfold Render.canNext. intros Hc%Z.ltb_ge. apply Hsame. lia.
  - destruct (Hmove (Z.max 0 (k - 1))) as (q & Hat & Hidx & Hsame); [lia|].
    exists (App.jumpReview (id q) w). unfold Render.onReviewPrev, Render.shown. rewrite Hq.
    unfold Render.reviewIndex. rewrite Hq, <- Ek, Hat. simpl.
    split_and!; try reflexivity; [exact Hidx|].
    unfold Render.canPrev. intros Hc%Z.ltb_ge. apply Hsame. lia.
Qed.

(** Reviewing the sample submission starts at question 2; "next" shows
    question 3 and "next" again stays there. *)
Lemma review_prev_next_step_witness :
  Render.onReviewNext Samples.submitted = Some (App.jumpReview "3" Samples.submitted)
  /\ Render.reviewIndex (App.ui (App.jumpReview "3" Samples.submitted)) = 2
  /\ Render.onReviewNext (App.jumpReview "3" Samples.submitted)
     = Some (App.jumpReview "3" (App.jumpReview "3" Samples.submitted)).
Proof.
  assert (Hnd : NoDup (map id [Samples.q1; Samples.q2; Samples.q3])).
  { apply (bool_decide_unpack _). vm_compute. exact I. }
  assert (Hids : Forall (fun q => id q <> "") [Samples.q1; Samples.q2; Samples.q3]).
  { repeat constructor; discriminate. }
  assert (Hin : App.reviewId (App.ui Samples.submitted)
                ∈ map id [Samples.q1; Samples.q2; Samples.q3]).
  { apply (bool_decide_unpack _). vm_compute. exact I. }
  destruct (review_prev_next_step Samples.submitted _ eq_refl Hnd Hids Hin)
    as [(w' & Hn & Hk & _) _].
  split_and!; vm_compute; reflexivity.
Defined.

(** ** Sessions: what holds in every reachable state *)

Section HandlerEquations.

Import Storage App.

Lemma startNew_loaded t w q0 rest :
  questions (ui w) = Some (q0 :: rest) ->
  startNew t w =
  Some {| ui := setView ViewQuiz (setReviewId (id q0) (setCurrentId (id q0)
                  (setAnswers (foldl (fun init q => <[id q := ""]> init) ∅ (q0 :: rest))
                     (ui w))));
          disk := saveMeta {| Storage.startedAt := Some t; Storage.submittedAt := None;
                              Storage.view := ViewQuiz;
                              Storage.currentId := Some (id q0);
                              Storage.reviewId := Some (id q0) |}
                    (clearAll (map id (q0 :: rest)) (disk w)) |}.
Proof. intros Hq. unfold startNew. now rewrite Hq. Qed.

Lemma continueQuiz_loaded t w q0 rest :
  questions (ui w) = Some (q0 :: rest) ->
  let m := loadMeta (disk w) in
  let cId := resolveId (q0 :: rest) (Storage.currentId m) (id q0) in
  continueQuiz t w =
  Some {| ui := setView ViewQuiz (setCurrentId cId (ui w));
          disk := saveMeta
                    (spread m {| p_startedAt := Some (default t (Storage.startedAt m));
                                 p_submittedAt := None; p_view := Some ViewQuiz;
                                 p_currentId := Some cId; p_reviewId := None |})
                    (disk w) |}.
Proof. intros Hq. unfold continueQuiz. now rewrite Hq. Qed.

Lemma goResult_loaded t1 t2 w q0 rest :
  questions (ui w) = Some (q0 :: rest) ->
  let m := loadMeta (disk w) in
  let rId := resolveId (q0 :: rest) (Storage.reviewId m) (id q0) in
  goResult t1 t2 w =
  Some {| ui := setView ViewResult (setReviewId rId (ui w));
          disk := saveMeta
                    (spread m {| p_startedAt := Some (default t1 (Storage.startedAt m));
                                 p_submittedAt := Some (default t2 (Storage.submittedAt m));
                                 p_view := Some ViewResult;
                                 p_currentId := None; p_reviewId := Some rId |})
                    (disk w) |}.
Proof. intros Hq. unfold goResult. now rewrite Hq. Qed.

End HandlerEquations.

Section SessionFacts.

Import Storage App Render Session.

Variable qs : list Question.
Hypothesis qs_nonempty : qs <> [].
Hypothesis ids_nonempty : Forall (fun q => id q <> "") qs.

Lemma resolveId_valid i fallback :
  i ∈ map id qs -> resolveId qs (Some i) fallback = i.
Proof.
  intros Hin. rewrite resolveId_spec by assumption.
  now rewrite bool_decide_eq_true_2.
Qed.

Lemma loaded_cons : exists q0 rest, qs = q0 :: rest.
Proof. destruct qs as [|q0 rest]; [congruence|eauto]. Qed.

Lemma first_id_in : match qs with q :: _ => id q | [] => "" end ∈ map id qs.
Proof. destruct qs; [congruence|]. simpl. now left. Qed.

Lemma loaded_lookup (d : Store) (m : gmap string string) i :
  foldl (fun init q => <[id q := getAnswer (id q) d]> init) m qs !! i =
  if bool_decide (i ∈ map id qs) then Some (getAnswer i d) else m !! i.
Proof.
  clear qs_nonempty ids_nonempty. revert m.
  induction qs as [|q l IH]; intros m.
  - reflexivity.
  - cbn [foldl map]. rewrite IH. destruct (decide (i ∈ map id l)) as [Hin|Hin].
    + rewrite !bool_decide_eq_true_2; [reflexivity| |assumption]. now right.
    + rewrite (bool_decide_eq_false_2 _ Hin).
      destruct (decide (i = id q)) as [->|Hne].
      * rewrite lookup_insert_eq, bool_decide_eq_true_2; [reflexivity|]. now left.
      * rewrite lookup_insert_ne by congruence.
        rewrite bool_decide_eq_false_2; [reflexivity|].
        intros [?|?]%elem_of_cons; contradiction.
Qed.

Lemma stamped_truthy (o : option Z) (t : Z) :
  (forall s, o = Some s -> 0 < s) -> 0 < t ->
  JsNumber.truthy (Some (match o with Some s => s | None => t end)) = true.
Proof.
  intros Ho Ht. simpl. apply negb_true_iff, Z.eqb_neq.
  destruct o as [s|]; [specialize (Ho s eq_refl)|]; lia.
Qed.

Lemma consistent_opened t d :
  stamped (loadMeta d) -> consistent qs (opened qs t d).
Proof.
  intros Hst. unfold opened, datasetReady. constructor; cbn.
  - reflexivity.
  - reflexivity.
  - apply resolveId_in, first_id_in.
  - apply resolveId_in, resolveId_in, first_id_in.
  - intros i. rewrite loaded_lookup. now rewrite lookup_empty.
  - reflexivity.
  - exact Hst.
  - reflexivity.
  - reflexivity.
Qed.

Lemma blanked_store_lookup (d : Store) i :
  getAnswer i (foldl (fun st q => setAnswer (id q) "" st) d qs) =
  if bool_decide (i ∈ map id qs) then "" else getAnswer i d.
Proof.
  unfold getAnswer. rewrite setAnswers_fold_answers, blanked_lookup.
  now case_bool_decide.
Qed.

Lemma consistent_blanked (u : State) (d d' : Store) :
  (forall i, getAnswer i d' = if bool_decide (i ∈ map id qs) then "" else getAnswer i d) ->
  forall i,
    foldl (fun next q => <[id q := ""]> next) (∅ : gmap string string) qs !! i =
    if bool_decide (i ∈ map id qs) then Some (getAnswer i d') else None.
Proof.
  intros Hd i. rewrite blanked_lookup, lookup_empty, Hd. now case_bool_decide.
Qed.

Lemma consistent_startNew t w w' :
  consistent qs w -> 0 < t -> startNew t w = Some w' -> consistent qs w'.
Proof.
  intros [Hq He Hcur Hrev Hans Hview Hst Hcd Hrd] Ht Hrun.
  destruct loaded_cons as (q0 & rest & Eqs).
  pose proof Hq as Hq'. rewrite Eqs in Hq'.
  rewrite (startNew_loaded _ _ _ _ Hq') in Hrun. rewrite <- Eqs in Hrun.
  injection Hrun as <-.
  assert (Hq0 : id q0 ∈ map id qs) by (rewrite Eqs; simpl; now left).
  constructor; cbn.
  - exact Hq.
  - exact He.
  - exact Hq0.
  - exact Hq0.
  - apply (consistent_blanked (ui w) (disk w)). intros i.
    rewrite clearAll_as_fold. unfold getAnswer. cbn.
    apply blanked_store_lookup.
  - unfold desiredView. cbn. destruct (Z.eqb_spec t 0); [lia|reflexivity].
  - split; cbn; [intros s [= <-]; assumption | intros s [=]].
  - now apply resolveId_valid.
  - discriminate.
Qed.

Lemma consistent_continueQuiz t w w' :
  consistent qs w -> 0 < t -> continueQuiz t w = Some w' -> consistent qs w'.
Proof.
  intros [Hq He Hcur Hrev Hans Hview [Hs1 Hs2] Hcd Hrd] Ht Hrun.
  destruct loaded_cons as (q0 & rest & Eqs).
  pose proof Hq as Hq'. rewrite Eqs in Hq'.
  rewrite (continueQuiz_loaded _ _ _ _ Hq') in Hrun. rewrite <- Eqs in Hrun.
  rewrite Eqs in Hcd at 2. rewrite Hcd in Hrun. injection Hrun as <-.
  constructor; cbn.
  - exact Hq.
  - exact He.
  - exact Hcur.
  - exact Hrev.
  - exact Hans.
  - unfold desiredView. cbn.
    destruct (Storage.startedAt (loadMeta (disk w))) as [s|] eqn:Es; cbn.
    + specialize (Hs1 s eq_refl). destruct (Z.eqb_spec s 0); [lia|reflexivity].
    + destruct (Z.eqb_spec t 0); [lia|reflexivity].
  - split; cbn.
    + intros s. destruct (Storage.startedAt (loadMeta (disk w))) as [s'|] eqn:Es; cbn;
        intros [= <-]; [now apply Hs1 | assumption].
    + exact Hs2.
  - now apply resolveId_valid.
  - discriminate.
Qed.

Lemma consistent_goResult t1 t2 w w' :
  consistent qs w -> 0 < t1 -> 0 < t2 -> goResult t1 t2 w = Some w' -> consistent qs w'.
Proof.
  intros [Hq He Hcur Hrev Hans Hview [Hs1 Hs2] Hcd Hrd] Ht1 Ht2 Hrun.
  destruct loaded_cons as (q0 & rest & Eqs).
  pose proof Hq as Hq'. rewrite Eqs in Hq'.
  rewrite (goResult_loaded _ _ _ _ _ Hq') in Hrun. rewrite <- Eqs in Hrun.
  injection Hrun as <-.
  assert (Hr : resolveId qs (Storage.reviewId (loadMeta (disk w))) (id q0) ∈ map id qs).
  { apply resolveId_in. rewrite Eqs. simpl. now left. }
  constructor; cbn.
  - exact Hq.
  - exact He.
  - exact Hcur.
  - exact Hr.
  - exact Hans.
  - unfold desiredView. cbn.
    destruct (Storage.submittedAt (loadMeta (disk w))) as [s|] eqn:Es; cbn.
    + specialize (Hs2 s eq_refl). destruct (Z.eqb_spec s 0); [lia|reflexivity].
    + destruct (Z.eqb_spec t2 0); [lia|reflexivity].
  - split; cbn; intros s.
    + destruct (Storage.startedAt (loadMeta (disk w))) as [s'|] eqn:Es; cbn;
        intros [= <-]; [now apply Hs1 | assumption].
    + destruct (Storage.submittedAt (loadMeta (disk w))) as [s'|] eqn:Es; cbn;
        intros [= <-]; [now apply Hs2 | assumption].
  - destruct (Storage.currentId (loadMeta (disk w))); exact Hcd.
  - intros _. now apply resolveId_valid.
Qed.

Lemma consistent_submitNow t1 t2 w :
  consistent qs w -> 0 < t1 -> 0 < t2 -> consistent qs (submitNow t1 t2 w).
Proof.
  intros [Hq He Hcur Hrev Hans Hview [Hs1 Hs2] Hcd Hrd] Ht1 Ht2.
  unfold submitNow. constructor; cbn.
  - exact Hq.
  - exact He.
  - exact Hcur.
  - exact Hcur.
  - exact Hans.
  - unfold desiredView. cbn. destruct (Z.eqb_spec t2 0); [lia|reflexivity].
  - split; cbn; intros s.
    + destruct (Storage.startedAt (loadMeta (disk w))) as [s'|] eqn:Es; cbn;
        intros [= <-]; [now apply Hs1 | assumption].
    + now intros [= <-].
  - now apply resolveId_valid.
  - intros _. now apply resolveId_valid.
Qed.

Lemma consistent_submit confirm t1 t2 w :
  consistent qs w -> 0 < t1 -> 0 < t2 -> consistent qs (fst (submit confirm t1 t2 w)).
Proof.
  intros Hc Ht1 Ht2. unfold submit. rewrite (c_questions _ _ Hc).
  destruct (0 <? _)%nat; [destruct (confirm _)|]; cbn;
    try assumption; now apply consistent_submitNow.
Qed.

Lemma consistent_clearAnswers confirm w :
  consistent qs w -> consistent qs (fst (clearAnswers confirm w)).
Proof.
  intros Hc. unfold clearAnswers. rewrite (c_questions _ _ Hc).
  destruct (confirm _); cbn; [|assumption].
  destruct Hc as [Hq He Hcur Hrev Hans Hview Hst Hcd Hrd].
  assert (Hm : loadMeta (foldl (fun st q => setAnswer (id q) "" st) (disk w) qs)
               = loadMeta (disk w)) by apply setAnswers_fold_meta.
  constructor; cbn; rewrite ?Hm; try assumption.
  apply (consistent_blanked (ui w) (disk w)). apply blanked_store_lookup.
Qed.

Lemma desiredView_spread_pointers m c r :
  desiredView (spread m {| p_startedAt := None; p_submittedAt := None; p_view := None;
                           p_currentId := c; p_reviewId := r |}) = desiredView m.
Proof. reflexivity. Qed.

Lemma consistent_jumpTo i w :
  consistent qs w -> i ∈ map id qs -> view (ui w) <> ViewResult ->
  consistent qs (jumpTo i w).
Proof.
  intros [Hq He Hcur Hrev Hans Hview Hst Hcd Hrd] Hi Hv.
  unfold jumpTo, persistMeta. constructor; cbn; try assumption.
  - now apply resolveId_valid.
  - intros Hres. contradiction.
Qed.

Lemma consistent_jumpReview i w :
  consistent qs w -> i ∈ map id qs -> consistent qs (jumpReview i w).
Proof.
  intros [Hq He Hcur Hrev Hans Hview Hst Hcd Hrd] Hi.
  unfold jumpReview, persistMeta. constructor; cbn; try assumption.
  intros _. now apply resolveId_valid.
Qed.

Lemma consistent_updateAnswer i v w :
  consistent qs w -> i ∈ map id qs -> consistent qs (updateAnswer i v w).
Proof.
  intros [Hq He Hcur Hrev Hans Hview Hst Hcd Hrd] Hi.
  unfold updateAnswer. constructor; cbn; try assumption.
  intros j. unfold getAnswer. cbn. destruct (decide (j = i)) as [->|Hne].
  - now rewrite !lookup_insert_eq, bool_decide_eq_true_2.
  - rewrite !lookup_insert_ne by congruence. apply Hans.
Qed.

Lemma consistent_tick t w : consistent qs w -> consistent qs (tick t w).
Proof. intros [Hq He Hcur Hrev Hans Hview Hst Hcd Hrd]. now constructor. Qed.

Lemma at_elem {A} (l : list A) (k : Z) (x : A) : at_ l k = Some x -> x ∈ l.
Proof.
  unfold at_. destruct (k <? 0); [discriminate|].
  intros H. eapply list_elem_of_lookup_2, H.
Qed.

Lemma id_elem (q : Question) : q ∈ qs -> id q ∈ map id qs.
Proof. intros H. apply list_elem_of_In, in_map. now apply list_elem_of_In. Qed.

Lemma shown_elem w k q :
  consistent qs w -> shown (ui w) k = Some q -> id q ∈ map id qs.
Proof.
  intros Hc. unfold shown. rewrite (c_questions _ _ Hc).
  intros H%at_elem. now apply id_elem.
Qed.

Lemma screen_of_view w :
  consistent qs w ->
  screen (ui w) = match view (ui w) with
                  | ViewStart => StartScreen
                  | ViewQuiz => QuizScreen
                  | ViewResult => ResultScreen
                  end.
Proof.
  intros Hc. unfold screen. now rewrite (c_no_error _ _ Hc), (c_questions _ _ Hc).
Qed.

Lemma gridIds_loaded w : consistent qs w -> gridIds (ui w) = map id qs.
Proof. intros Hc. unfold gridIds. now rewrite (c_questions _ _ Hc). Qed.

(** One step keeps the state consistent. *)
Lemma consistent_step e w w' :
  consistent qs w -> offered e w -> timely e -> handle e w = Some w' ->
  consistent qs w'.
Proof.
  intros Hc Hoff Htime Hrun.
  pose proof (screen_of_view w Hc) as Hscreen.
  destruct e as [t|t|t1 t2|confirm|confirm t1 t2|i| | |v|i| | |t];
    cbn [handle offered timely] in *.
  - now apply (consistent_startNew t w w').
  - now apply (consistent_continueQuiz t w w').
  - destruct Htime. now apply (consistent_goResult t1 t2 w w').
  - injection Hrun as <-. now apply consistent_clearAnswers.
  - injection Hrun as <-. destruct Htime. now apply consistent_submit.
  - injection Hrun as <-. destruct Hoff as [Hs Hi].
    rewrite (gridIds_loaded w Hc) in Hi. apply consistent_jumpTo; try assumption.
    intros Hv. rewrite Hscreen, Hv in Hs. discriminate.
  - unfold onPrev in Hrun.
    destruct (shown (ui w) _) as [q|] eqn:Eq; [|discriminate]. injection Hrun as <-.
    apply consistent_jumpTo; [assumption | eapply shown_elem; eauto |].
    intros Hv. rewrite Hscreen, Hv in Hoff. discriminate.
  - unfold onNext in Hrun. rewrite (c_questions _ _ Hc) in Hrun.
    destruct (at_ qs _) as [q|] eqn:Eq; [|discriminate]. injection Hrun as <-.
    apply consistent_jumpTo; [assumption | eapply id_elem, at_elem, Eq |].
    intros Hv. rewrite Hscreen, Hv in Hoff. discriminate.
  - unfold onChange in Hrun.
    destruct (shown (ui w) _) as [q|] eqn:Eq; [|discriminate]. injection Hrun as <-.
    apply consistent_updateAnswer; [assumption | eapply shown_elem; eauto].
  - injection Hrun as <-. destruct Hoff as [Hs Hi].
    rewrite (gridIds_loaded w Hc) in Hi. now apply consistent_jumpReview.
  - unfold onReviewPrev in Hrun.
    destruct (shown (ui w) _) as [q|] eqn:Eq; [|discriminate]. injection Hrun as <-.
    apply consistent_jumpReview; [assumption | eapply shown_elem; eauto].
  - unfold onReviewNext in Hrun. rewrite (c_questions _ _ Hc) in Hrun.
    destruct (at_ qs _) as [q|] eqn:Eq; [|discriminate]. injection Hrun as <-.
    apply consistent_jumpReview; [assumption | eapply id_elem, at_elem, Eq].
  - injection Hrun as <-. now apply consistent_tick.
Qed.

Lemma reachable_consistent d w :
  stamped (loadMeta d) -> reachable qs d w -> consistent qs w.
Proof.
  intros Hst Hr. induction Hr as [t|e w w' Hr IH Hoff Htime Hrun].
  - now apply consistent_opened.
  - eapply consistent_step; eauto.
Qed.

(** In a consistent state no handler throws. *)
Lemma consistent_handle e w : consistent qs w -> exists w', handle e w = Some w'.
Proof.
  intros Hc. pose proof (c_questions _ _ Hc) as Hq.
  destruct loaded_cons as (q0 & rest & Eqs).
  pose proof Hq as Hq'. rewrite Eqs in Hq'.
  assert (Hat : forall k, 0 <= k < Z.of_nat (List.length qs) -> exists q, at_ qs k = Some q).
  { intros k Hk. destruct (at_in_range qs k Hk) as (q & Hq1 & _). eauto. }
  assert (Hcur : 0 <= currentIndex (ui w) < Z.of_nat (List.length qs)).
  { unfold currentIndex. rewrite Hq. apply (indexOf_spec qs _ qs_nonempty). }
  assert (Hrev : 0 <= reviewIndex (ui w) < Z.of_nat (List.length qs)).
  { unfold reviewIndex. rewrite Hq. apply (indexOf_spec qs _ qs_nonempty). }
  destruct e as [t|t|t1 t2|confirm|confirm t1 t2|i| | |v|i| | |t]; cbn [handle];
    try (eexists; reflexivity).
  - rewrite (startNew_loaded _ _ _ _ Hq'). eauto.
  - rewrite (continueQuiz_loaded _ _ _ _ Hq'). eauto.
  - rewrite (goResult_loaded _ _ _ _ _ Hq'). eauto.
  - unfold onPrev, shown. rewrite Hq.
    destruct (Hat (Z.max 0 (currentIndex (ui w) - 1))) as [q ->]; [lia|]. cbn. eauto.
  - unfold onNext. rewrite Hq.
    destruct (Hat (Z.min (Z.of_nat (List.length qs) - 1) (currentIndex (ui w) + 1)))
      as [q ->]; [lia|]. cbn. eauto.
  - unfold onChange, shown. rewrite Hq.
    destruct (Hat (currentIndex (ui w))) as [q ->]; [lia|]. cbn. eauto.
  - unfold onReviewPrev, shown. rewrite Hq.
    destruct (Hat (Z.max 0 (reviewIndex (ui w) - 1))) as [q ->]; [lia|]. cbn. eauto.
  - unfold onReviewNext. rewrite Hq.
    destruct (Hat (Z.min (Z.of_nat (List.length qs) - 1) (reviewIndex (ui w) + 1)))
      as [q ->]; [lia|]. cbn. eauto.
Qed.

Lemma desiredView_result m :
  desiredView m = ViewResult ->
  Storage.view m = ViewResult /\ JsNumber.truthy (submittedAt m) = true.
Proof.
  unfold desiredView.
  destruct (Storage.view m), (JsNumber.truthy (submittedAt m)),
    (JsNumber.truthy (startedAt m)); cbn; intros H; try discriminate H; now split.
Qed.

Lemma desiredView_quiz m :
  desiredView m = ViewQuiz ->
  Storage.view m = ViewQuiz /\ JsNumber.truthy (startedAt m) = true.
Proof.
  unfold desiredView.
  destruct (Storage.view m), (JsNumber.truthy (submittedAt m)),
    (JsNumber.truthy (startedAt m)); cbn; intros H; try discriminate H; now split.
Qed.

Lemma truthy_stamped (o : option Z) :
  (forall s, o = Some s -> 0 < s) -> JsNumber.truthy o = true -> exists s, o = Some s /\ 0 < s.
Proof. destruct o as [s|]; [|discriminate]. intros H _. exists s. auto. Qed.

End SessionFacts.

Lemma sample_session_reachable :
  Session.reachable SessionSamples.qs3 Samples.emptyStore SessionSamples.handedIn.
Proof.
  eapply (Session.reach_step _ _ (Session.ClickSubmit Samples.accept 1500 2000)
            SessionSamples.moved);
    [| reflexivity | cbn; lia | reflexivity].
  eapply (Session.reach_step _ _ Session.ClickNext SessionSamples.typed);
    [| reflexivity | exact I | reflexivity].
  eapply (Session.reach_step _ _ (Session.Change " B ") SessionSamples.started);
    [| reflexivity | exact I | reflexivity].
  eapply (Session.reach_step _ _ (Session.ClickStart 1000));
    [apply (Session.reach_opened _ _ 0) | left; reflexivity | cbn; lia | reflexivity].
Qed.

Lemma sample_session_loaded :
  SessionSamples.qs3 <> []
  /\ Forall (fun q => id q <> "") SessionSamples.qs3
  /\ Session.stamped (Storage.loadMeta Samples.emptyStore).
Proof.
  split_and!; [discriminate | repeat constructor; discriminate |].
  split; intros s; discriminate.
Qed.

(** X9. In every state of a session over a loaded dataset both pointers name
    loaded questions, and the question each page shows is one that has the
    pointer's id: no page ever reads an undefined question. *)
Theorem session_pointers_name_shown_questions
    (qs : list Question) (d : Storage.Store) (w : App.World) :
  qs <> [] ->
  Forall (fun q => id q <> "") qs ->
  Session.stamped (Storage.loadMeta d) ->
  Session.reachable qs d w ->
  App.questions (App.ui w) = Some qs
  /\ App.currentId (App.ui w) ∈ map id qs
  /\ App.reviewId (App.ui w) ∈ map id qs
  /\ (exists q, Render.shown (App.ui w) (Render.currentIndex (App.ui w)) = Some q
        /\ id q = App.currentId (App.ui w))
  /\ (exists q, Render.shown (App.ui w) (Render.reviewIndex (App.ui w)) = Some q
        /\ id q = App.reviewId (App.ui w)).
Proof.
  intros Hne Hids Hst Hr.
  destruct (reachable_consistent qs Hne Hids d w Hst Hr)
    as [Hq He Hcur Hrev Hans Hview _ Hcd Hrd].
  assert (Hnonempty : forall i, i ∈ map id qs -> i <> "").
  { intros i Hi. apply list_elem_of_In, in_map_iff in Hi as (q & <- & Hi).
    rewrite List.Forall_forall in Hids. now apply Hids. }
  unfold Render.currentIndex, Render.reviewIndex, Render.shown. rewrite Hq.
  split_and!; try assumption; try reflexivity.
  - destruct (indexOf_shown qs (App.currentId (App.ui w)) Hne) as (_ & q & Hs & Hid & _).
    exists q. split; [assumption|]. auto.
  - destruct (indexOf_shown qs (App.reviewId (App.ui w)) Hne) as (_ & q & Hs & Hid & _).
    exists q. split; [assumption|]. auto.
Qed.

(** The sample session ends on the result page reviewing question 2. *)
Lemma session_pointers_name_shown_questions_witness :
  App.reviewId (App.ui SessionSamples.handedIn) ∈ map id SessionSamples.qs3
  /\ exists q, Render.shown (App.ui SessionSamples.handedIn)
                 (Render.reviewIndex (App.ui SessionSamples.handedIn)) = Some q
       /\ id q = App.reviewId (App.ui SessionSamples.handedIn).
Proof.
  destruct sample_session_loaded as (Hne & Hids & Hst).
  destruct (session_pointers_name_shown_questions _ _ _ Hne Hids Hst
              sample_session_reachable) as (_ & _ & Hrev & _ & Hshown).
  split; assumption.
Defined.

(** X10. In every state of a session the page on show has the time stamp it
    needs, on disk: while the result page is shown the persisted view is
    [result] and [submittedAt] is set, while the quiz page is shown the
    persisted view is [quiz] and [startedAt] is set; and every persisted time
    stamp is a clock reading. *)
Theorem session_view_has_timestamp
    (qs : list Question) (d : Storage.Store) (w : App.World) :
  qs <> [] ->
  Forall (fun q => id q <> "") qs ->
  Session.stamped (Storage.loadMeta d) ->
  Session.reachable qs d w ->
  let m := Storage.loadMeta (App.disk w) in
  (App.view (App.ui w) = ViewResult ->
     Storage.view m = ViewResult /\ exists s, Storage.submittedAt m = Some s /\ 0 < s)
  /\ (App.view (App.ui w) = ViewQuiz ->
     Storage.view m = ViewQuiz /\ exists s, Storage.startedAt m = Some s /\ 0 < s)
  /\ Session.stamped m.
Proof.
  intros Hne Hids Hst Hr m.
  destruct (reachable_consistent qs Hne Hids d w Hst Hr)
    as [_ _ _ _ _ Hview [Hs1 Hs2] _ _].
  fold m in Hview, Hs1, Hs2. split_and!.
  - intros Hv. rewrite Hv in Hview. apply desiredView_result in Hview as [Hm Ht].
    split; [assumption|]. now apply truthy_stamped.
  - intros Hv. rewrite Hv in Hview. apply desiredView_quiz in Hview as [Hm Ht].
    split; [assumption|]. now apply truthy_stamped.
  - now split.
Qed.

(** The sample session ends on the result page, submitted at 2000. *)
Lemma session_view_has_timestamp_witness :
  Storage.view (Storage.loadMeta (App.disk SessionSamples.handedIn)) = ViewResult
  /\ exists s, Storage.submittedAt (Storage.loadMeta (App.disk SessionSamples.handedIn))
               = Some s /\ 0 < s.
Proof.
  destruct sample_session_loaded as (Hne & Hids & Hst).
  destruct (session_view_has_timestamp _ _ _ Hne Hids Hst sample_session_reachable)
    as (Hres & _).
  apply Hres. reflexivity.
Defined.

(** X11. In every state of a session the answers in memory are the answers
    in storage: for each loaded question the in-memory record holds what
    [getAnswer] reads for its id, and it has no other key. *)
Theorem session_answers_mirror_storage
    (qs : list Question) (d : Storage.Store) (w : App.World) :
  qs <> [] ->
  Forall (fun q => id q <> "") qs ->
  Session.stamped (Storage.loadMeta d) ->
  Session.reachable qs d w ->
  (forall q, q ∈ qs ->
     App.answers (App.ui w) !! id q = Some (Storage.getAnswer (id q) (App.disk w)))
  /\ (forall i, i ∉ map id qs -> App.answers (App.ui w) !! i = None).
Proof.
  intros Hne Hids Hst Hr.
  destruct (reachable_consistent qs Hne Hids d w Hst Hr) as [_ _ _ _ Hans _ _ _ _].
  split.
  - intros q Hq. rewrite Hans, bool_decide_eq_true_2; [reflexivity|].
    apply list_elem_of_In, in_map. now apply list_elem_of_In.
  - intros i Hi. now rewrite Hans, bool_decide_eq_false_2.
Qed.

(** After the sample session the answer typed for question 1 is in memory
    and in storage. *)
Lemma session_answers_mirror_storage_witness :
  App.answers (App.ui SessionSamples.handedIn) !! "1" = Some " B "
  /\ Storage.getAnswer "1" (App.disk SessionSamples.handedIn) = " B ".
Proof.
  destruct sample_session_loaded as (Hne & Hids & Hst).
  destruct (session_answers_mirror_storage _ _ _ Hne Hids Hst sample_session_reachable)
    as (Hans & _).
  split; [|reflexivity].
  exact (eq_trans (Hans Samples.q1 ltac:(now left)) eq_refl).
Defined.

(** X12. In a session over a loaded dataset no handler throws: whatever the
    event, the handler wired to it returns; and when the event is one the
    current page offers, the state it returns is again a state of the
    session. *)
Theorem session_handlers_never_throw
    (qs : list Question) (d : Storage.Store) (w : App.World) (e : Session.Event) :
  qs <> [] ->
  Forall (fun q => id q <> "") qs ->
  Session.stamped (Storage.loadMeta d) ->
  Session.reachable qs d w ->
  exists w', Session.handle e w = Some w'
    /\ (Session.offered e w -> Session.timely e -> Session.reachable qs d w').
Proof.
  intros Hne Hids Hst Hr.
  pose proof (reachable_consistent qs Hne Hids d w Hst Hr) as Hc.
  destruct (consistent_handle qs Hne Hids e w Hc) as [w' Hw']. exists w'.
  split; [assumption|]. intros Hoff Htime. now apply (Session.reach_step qs d e w w').
Qed.

(** "Previous" on the first question of the sample session returns. *)
Lemma session_handlers_never_throw_witness :
  exists w', Session.handle Session.ReviewPrev SessionSamples.handedIn = Some w'.
Proof.
  destruct sample_session_loaded as (Hne & Hids & Hst).
  destruct (session_handlers_never_throw _ _ _ Session.ReviewPrev Hne Hids Hst
              sample_session_reachable) as (w' & Hw' & _).
  now exists w'.
Defined.

(** X13. A session survives a reload, provided the time stamps that were in
    storage when the session began are absent or after the epoch (as this
    component writes them) and every clock reading of the session is after
    the epoch: opening the page again over the storage the session left
    behind shows the same page with the same answers and the same current
    question, and on the result page the same question under review;
    opening the page writes nothing. *)
Theorem session_survives_reload
    (qs : list Question) (d : Storage.Store) (w : App.World) (t : Z) :
  qs <> [] ->
  Forall (fun q => id q <> "") qs ->
  Session.stamped (Storage.loadMeta d) ->
  Session.reachable qs d w ->
  let w2 := Session.opened qs t (App.disk w) in
  App.questions (App.ui w2) = App.questions (App.ui w)
  /\ App.answers (App.ui w2) = App.answers (App.ui w)
  /\ App.view (App.ui w2) = App.view (App.ui w)
  /\ Render.screen (App.ui w2) = Render.screen (App.ui w)
  /\ App.currentId (App.ui w2) = App.currentId (App.ui w)
  /\ (App.view (App.ui w) = ViewResult -> App.reviewId (App.ui w2) = App.reviewId (App.ui w))
  /\ App.disk w2 = App.disk w.
Proof.
  intros Hne Hids Hst Hr w2.
  destruct (reachable_consistent qs Hne Hids d w Hst Hr)
    as [Hq He Hcur Hrev Hans Hview Hst' Hcd Hrd].
  assert (Hc2 : Session.consistent qs w2) by now apply consistent_opened.
  assert (Hv : App.view (App.ui w2) = App.view (App.ui w)) by exact Hview.
  subst w2. split_and!.
  - now rewrite Hq.
  - apply map_eq. intros i. rewrite Hans. cbn. rewrite loaded_lookup.
    now rewrite lookup_empty.
  - exact Hv.
  - unfold Render.screen. rewrite Hv, Hq, He. reflexivity.
  - exact Hcd.
  - intros Hres. cbn. cbn in Hcd. rewrite Hcd. now apply Hrd.
  - reflexivity.
Qed.

(** Reloading after the sample session shows the result page again, with the
    answer to question 1 and question 2 under review. *)
Lemma session_survives_reload_witness :
  App.view (App.ui (Session.opened SessionSamples.qs3 9000
                      (App.disk SessionSamples.handedIn))) = ViewResult
  /\ App.reviewId (App.ui (Session.opened SessionSamples.qs3 9000
                             (App.disk SessionSamples.handedIn))) = "2".
Proof.
  destruct sample_session_loaded as (Hne & Hids & Hst).
  destruct (session_survives_reload _ _ _ 9000 Hne Hids Hst sample_session_reachable)
    as (_ & _ & Hv & _ & _ & Hrev & _).
  split; [rewrite Hv | rewrite Hrev]; reflexivity.
Defined.

(** The proviso on the stored time stamps is needed: over a storage whose
    [startedAt] is 0, "continue" keeps the 0 and shows the quiz page, and
    opening the page again shows the start page. *)
Example reload_after_zero_stamp :
  Session.reachable SessionSamples.qs3 SessionSamples.zeroStore SessionSamples.zeroResumed
  /\ App.view (App.ui SessionSamples.zeroResumed) = ViewQuiz
  /\ Storage.startedAt (Storage.loadMeta (App.disk SessionSamples.zeroResumed)) = Some 0
  /\ App.view (App.ui (Session.opened SessionSamples.qs3 20
                         (App.disk SessionSamples.zeroResumed))) = ViewStart.
Proof.
  split_and!; try reflexivity.
  apply (Session.reach_step _ _ (Session.ClickContinue 10)
           (Session.opened SessionSamples.qs3 1 SessionSamples.zeroStore)).
  - apply Session.reach_opened.
  - vm_compute. tauto.
  - cbn. lia.
  - reflexivity.
Qed.

(** X22. "Continue" resumes where the user was: in a session it only
    switches to the quiz page. The current question, the question under
    review and the answers stay, in the component and in storage; a stored
    [startedAt] and [submittedAt] are kept, so the timer goes on from the
    original start. *)
Theorem continue_resumes_where_user_was
    (qs : list Question) (d : Storage.Store) (w w' : App.World) (t : Z) :
  qs <> [] ->
  Forall (fun q => id q <> "") qs ->
  Session.stamped (Storage.loadMeta d) ->
  Session.reachable qs d w ->
  App.continueQuiz t w = Some w' ->
  let m := Storage.loadMeta (App.disk w) in
  let m' := Storage.loadMeta (App.disk w') in
  App.ui w' = App.setView ViewQuiz (App.ui w)
  /\ Storage.answerStore (App.disk w') = Storage.answerStore (App.disk w)
  /\ Storage.view m' = ViewQuiz
  /\ Storage.currentId m' = Some (App.currentId (App.ui w))
  /\ Storage.reviewId m' = Storage.reviewId m
  /\ Storage.submittedAt m' = Storage.submittedAt m
  /\ Storage.startedAt m' = Some (default t (Storage.startedAt m)).
Proof.
  intros Hne Hids Hst Hr Hrun m m'. subst m m'.
  destruct (reachable_consistent qs Hne Hids d w Hst Hr) as [Hq _ _ _ _ _ _ Hcd _].
  destruct qs as [|q0 rest]; [congruence|].
  rewrite (continueQuiz_loaded t w q0 rest Hq) in Hrun. cbv zeta in Hrun.
  rewrite Hcd in Hrun. injection Hrun as <-. cbn.
  split_and!; reflexivity.
Qed.

(** Going back to the quiz after the sample session: question 2 again, the
    start time 1000 and the submission time 2000 kept. *)
Lemma continue_resumes_where_user_was_witness :
  exists w', App.continueQuiz 3000 SessionSamples.handedIn = Some w'
    /\ App.currentId (App.ui w') = "2"
    /\ Storage.startedAt (Storage.loadMeta (App.disk w')) = Some 1000.
Proof.
  destruct sample_session_loaded as (Hne & Hids & Hst).
  eexists. split; [reflexivity|].
  destruct (continue_resumes_where_user_was _ _ _ _ 3000 Hne Hids Hst
              sample_session_reachable eq_refl) as (Hui & _ & _ & _ & _ & _ & Hstart).
  split; [rewrite Hui | rewrite Hstart]; reflexivity.
Defined.

(** ** How the handlers compose *)

(** X14. The timer restarts with "start": after [startNew] at a clock
    reading [t0], the elapsed time shown at any later tick [t] is
    [max(0, t - t0)], whatever time stamps were stored before; it is 0 at
    the moment of the click. *)
Theorem timer_restarts_with_startNew (t0 : Z) (w w' : App.World) :
  t0 <> 0 ->
  App.startNew t0 w = Some w' ->
  App.questions (App.ui w) <> None ->
  (forall t, App.elapsed (App.tick t w') = Z.max 0 (t - t0))
  /\ App.elapsed (App.tick t0 w') = 0.
Proof.
  intros Ht0 Hrun Hq. unfold App.startNew in Hrun.
  destruct (App.questions (App.ui w)) as [[|q0 rest]|]; try congruence.
  injection Hrun as <-.
  match goal with
  | |- (forall t, App.elapsed (App.tick t ?W) = _) /\ _ =>
      assert (E : forall t, App.elapsed (App.tick t W) = Z.max 0 (t - t0))
  end.
  { intros t. unfold App.elapsed, App.elapsedMs. cbn.
    destruct (Z.eqb_spec t0 0); [contradiction|]. reflexivity. }
  split; [exact E|]. rewrite E. lia.
Qed.

(** Restarting the sample submission at 3000: one second later the timer
    shows 1000. *)
Lemma timer_restarts_with_startNew_witness :
  exists w', App.startNew 3000 Samples.submitted = Some w'
    /\ App.elapsed (App.tick 4000 w') = 1000.
Proof.
  eexists. split; [reflexivity|].
  rewrite (proj1 (timer_restarts_with_startNew 3000 Samples.submitted _
                    ltac:(discriminate) eq_refl ltac:(discriminate))).
  reflexivity.
Defined.

(** X15. The timer stops with a submission that goes through: afterwards
    the elapsed time shown is [max(0, submittedAt - startedAt)] at every
    tick, where [startedAt] is the stored one, or the clock reading of the
    click when none was stored. *)
Theorem timer_stops_with_submit
    (confirm : App.Prompt -> bool) (t1 t2 : Z) (w : App.World) (qs : list Question) :
  App.questions (App.ui w) = Some qs ->
  (forall p, confirm p = true) ->
  t1 <> 0 -> t2 <> 0 ->
  Storage.startedAt (Storage.loadMeta (App.disk w)) <> Some 0 ->
  let w' := fst (App.submit confirm t1 t2 w) in
  let started := default t1 (Storage.startedAt (Storage.loadMeta (App.disk w))) in
  forall t, App.elapsed (App.tick t w') = Z.max 0 (t2 - started).
Proof.
  intros Hq Hyes Ht1 Ht2 Hs w' started t. subst w' started.
  unfold App.submit. rewrite Hq.
  assert (E : fst (if (0 <? List.length (App.unanswered qs (App.answers (App.ui w))))%nat
                   then if negb (confirm (App.ConfirmSubmit
                                  (List.length (App.unanswered qs (App.answers (App.ui w))))))
                        then (w, [App.ConfirmSubmit
                                    (List.length (App.unanswered qs (App.answers (App.ui w))))])
                        else (App.submitNow t1 t2 w,
                              [App.ConfirmSubmit
                                 (List.length (App.unanswered qs (App.answers (App.ui w))))])
                   else (App.submitNow t1 t2 w, []))
              = App.submitNow t1 t2 w).
  { rewrite Hyes. now destruct (0 <? _)%nat. }
  cbv zeta. rewrite E. unfold App.elapsed, App.elapsedMs, App.submitNow. cbn.
  destruct (Storage.startedAt (Storage.loadMeta (App.disk w))) as [s|] eqn:Es; cbn.
  - destruct (Z.eqb_spec s 0); [congruence|].
    destruct (Z.eqb_spec t2 0); [contradiction|]. reflexivity.
  - destruct (Z.eqb_spec t1 0); [contradiction|].
    destruct (Z.eqb_spec t2 0); [contradiction|]. reflexivity.
Qed.

(** The sample quiz, started at 1000 and submitted at 2000, shows 1000 at
    any later tick. *)
Lemma timer_stops_with_submit_witness :
  App.elapsed (App.tick 5000 (fst (App.submit Samples.accept 1500 2000 Samples.inProgress)))
    = 1000
  /\ App.elapsed (App.tick 9000 (fst (App.submit Samples.accept 1500 2000 Samples.inProgress)))
    = 1000.
Proof.
  pose proof (timer_stops_with_submit Samples.accept 1500 2000 Samples.inProgress _
                eq_refl (fun _ => eq_refl) ltac:(discriminate) ltac:(discriminate)
                ltac:(discriminate)) as H.
  split; [rewrite (H 5000) | rewrite (H 9000)]; reflexivity.
Defined.

(** X16. Navigation writes compose: jumping twice is jumping to the last
    target, jumping to the question one is on changes nothing further, and
    a jump in the quiz and a jump in the review do not disturb each other
    (either order gives the same component and the same storage). *)
Theorem jumps_compose (i j : string) (w : App.World) :
  App.jumpTo i (App.jumpTo j w) = App.jumpTo i w
  /\ App.jumpReview i (App.jumpReview j w) = App.jumpReview i w
  /\ App.jumpTo i (App.jumpReview j w) = App.jumpReview j (App.jumpTo i w)
  /\ Storage.currentId (Storage.loadMeta (App.disk (App.jumpTo i (App.jumpReview j w))))
     = Some i
  /\ Storage.reviewId (Storage.loadMeta (App.disk (App.jumpTo i (App.jumpReview j w))))
     = Some j.
Proof. destruct w as [u [a m]]. split_and!; reflexivity. Qed.

(** X17. Answer updates compose: a later answer to the same question
    replaces the earlier one, answers to different questions can be given in
    either order, and an update leaves the metadata, the view and both
    pointers alone. *)
Theorem updateAnswer_composes (i j v v' : string) (w : App.World) :
  App.updateAnswer i v (App.updateAnswer i v' w) = App.updateAnswer i v w
  /\ (i <> j ->
      App.updateAnswer i v (App.updateAnswer j v' w)
      = App.updateAnswer j v' (App.updateAnswer i v w))
  /\ Storage.loadMeta (App.disk (App.updateAnswer i v w)) = Storage.loadMeta (App.disk w)
  /\ App.view (App.ui (App.updateAnswer i v w)) = App.view (App.ui w)
  /\ App.currentId (App.ui (App.updateAnswer i v w)) = App.currentId (App.ui w)
  /\ App.reviewId (App.ui (App.updateAnswer i v w)) = App.reviewId (App.ui w).
Proof.
  destruct w as [u [a m]]. unfold App.updateAnswer, Storage.setAnswer, App.setAnswers.
  cbn. split_and!; try reflexivity.
  - now rewrite !insert_insert_eq.
  - intros Hne. f_equal; f_equal; now apply insert_insert_ne.
Qed.

(** Typing "A" then "B" for question 1 leaves "B"; an answer to question 2
    may come before or after. *)
Lemma updateAnswer_composes_witness :
  App.updateAnswer "1" "B" (App.updateAnswer "2" "x" Samples.fresh)
  = App.updateAnswer "2" "x" (App.updateAnswer "1" "B" Samples.fresh).
Proof.
  apply (proj1 (proj2 (updateAnswer_composes "1" "2" "B" "x" Samples.fresh))).
  discriminate.
Defined.

Lemma filter_all_false {A} (p : A -> bool) (l : list A) :
  (forall x, x ∈ l -> p x = false) -> List.filter p l = [].
Proof.
  induction l as [|x l IH]; intros H; [reflexivity|]. cbn.
  rewrite (H x) by now left. apply IH. intros y Hy. apply H. now right.
Qed.

Lemma filter_all_true {A} (p : A -> bool) (l : list A) :
  (forall x, x ∈ l -> p x = true) -> List.filter p l = l.
Proof.
  induction l as [|x l IH]; intros H; [reflexivity|]. cbn.
  rewrite (H x) by now left. f_equal. apply IH. intros y Hy. apply H. now right.
Qed.

Lemma blank_answers_counts (s : App.State) (qs : list Question) :
  App.questions s = Some qs ->
  (forall q, q ∈ qs -> App.answers s !! id q = Some "") ->
  App.answeredCount s = 0%nat
  /\ App.correct (App.score s) = 0%nat
  /\ List.length (App.unanswered qs (App.answers s)) = List.length qs.
Proof.
  intros Hq Hblank.
  assert (Hall : forall q, q ∈ qs -> App.answerOf (App.answers s) (id q) = "").
  { intros q Hin. unfold App.answerOf. now rewrite (Hblank q Hin). }
  unfold App.answeredCount, App.score, App.unanswered. rewrite Hq. cbn [App.correct].
  rewrite !count_fold. split_and!.
  - rewrite filter_all_false; [reflexivity|]. intros q Hin. now rewrite (Hall q Hin).
  - rewrite filter_all_false; [reflexivity|]. intros q Hin. now rewrite (Hall q Hin).
  - rewrite filter_all_true; [reflexivity|]. intros q Hin. now rewrite (Hall q Hin).
Qed.

Lemma clearAnswers_resets_answers_aux confirm w qs :
  App.questions (App.ui w) = Some qs ->
  confirm App.ConfirmClear = true ->
  App.questions (App.ui (fst (App.clearAnswers confirm w))) = Some qs
  /\ forall q, q ∈ qs ->
       App.answers (App.ui (fst (App.clearAnswers confirm w))) !! id q = Some "".
Proof.
  intros Hq Hyes. unfold App.clearAnswers. rewrite Hq, Hyes. cbn.
  split; [exact Hq|]. intros q Hin. now apply answers_blanked_at.
Qed.

(** X18. After a confirmed "clear answers", and after "start", the session
    counts from zero: the progress counter and the score are 0, every
    question is unanswered, and a submit would warn with the total number
    of questions. *)
Theorem cleared_session_counts_from_zero
    (confirm : App.Prompt -> bool) (t : Z) (w : App.World) (qs : list Question) :
  App.questions (App.ui w) = Some qs ->
  qs <> [] ->
  let zero (w' : App.World) :=
    App.answeredCount (App.ui w') = 0%nat
    /\ App.correct (App.score (App.ui w')) = 0%nat
    /\ forall c t1 t2,
         snd (App.submit c t1 t2 w') = [App.ConfirmSubmit (List.length qs)] in
  (confirm App.ConfirmClear = true -> zero (fst (App.clearAnswers confirm w)))
  /\ (exists w', App.startNew t w = Some w' /\ zero w').
Proof.
  intros Hq Hne zero.
  assert (Hzero : forall w', App.questions (App.ui w') = Some qs ->
            (forall q, q ∈ qs -> App.answers (App.ui w') !! id q = Some "") -> zero w').
  { intros w' Hq' Hblank.
    destruct (blank_answers_counts (App.ui w') qs Hq' Hblank) as (H1 & H2 & H3).
    split_and!; [assumption | assumption |].
    intros c t1 t2. unfold App.submit. rewrite Hq', H3.
    destruct qs as [|q l]; [congruence|]. cbn. now destruct (c _). }
  split.
  - intros Hyes.
    destruct (clearAnswers_resets_answers_aux confirm w qs Hq Hyes) as (Hq' & Hblank).
    now apply Hzero.
  - destruct qs as [|q0 rest] eqn:Eqs; [congruence|].
    rewrite (startNew_loaded t w q0 rest Hq). eexists. split; [reflexivity|].
    apply Hzero; [exact Hq|].
    intros q Hin. exact (answers_blanked_at (q0 :: rest) q Hin).
Qed.

(** Clearing the sample quiz, or restarting it: nothing answered, and a
    submit would warn about all three questions. *)
Lemma cleared_session_counts_from_zero_witness :
  App.answeredCount (App.ui (fst (App.clearAnswers Samples.accept Samples.inProgress)))
    = 0%nat
  /\ snd (App.submit Samples.decline 1 2
            (fst (App.clearAnswers Samples.accept Samples.inProgress)))
     = [App.ConfirmSubmit 3].
Proof.
  destruct (cleared_session_counts_from_zero Samples.accept 3000 Samples.inProgress
              [Samples.q1; Samples.q2; Samples.q3] eq_refl ltac:(discriminate))
    as [Hclear _].
  destruct (Hclear eq_refl) as (Hcount & _ & Hsubmit).
  split; [exact Hcount | apply Hsubmit].
Defined.

(** ** The loader's records, and the pages around a load *)

Section LoadedFacts.

Import Loader.

Variable JSON_parse : string -> option JsValue.

Lemma orUndefined_trimmed s t :
  orUndefined (trim s) = Some t -> t <> "" /\ trim t = t.
Proof.
  unfold orUndefined. destruct (JsString.truthy (trim s)) eqn:E; [|discriminate].
  intros [= <-]. split; [now apply truthy_nonempty | apply trim_trim].
Qed.

Lemma parseRows_elem rows q :
  q ∈ parseRows JSON_parse rows -> exists row, row ∈ rows /\ parseRow JSON_parse row = Some q.
Proof.
  induction rows as [|row rest IH]; simpl.
  - intros H. now apply elem_of_nil in H.
  - destruct (parseRow JSON_parse row) as [q'|] eqn:Ep.
    + intros [->|Hin]%elem_of_cons.
      * exists row. split; [now left|assumption].
      * destruct (IH Hin) as (r & Hr & E). exists r. split; [now right|assumption].
    + intros Hin. destruct (IH Hin) as (r & Hr & E). exists r. split; [now right|assumption].
Qed.

Lemma parseRow_trimmed row q :
  parseRow JSON_parse row = Some q ->
  id q <> "" /\ trim (id q) = id q /\ trim (answer q) = answer q
  /\ (forall s, question q = Some s -> s <> "" /\ trim s = s)
  /\ (forall s, chQuestion q = Some s -> s <> "" /\ trim s = s)
  /\ (forall s, image q = Some s -> s <> "" /\ trim s = s).
Proof.
  unfold parseRow.
  destruct (JsString.truthy (trim (asString (cell row "id")))) eqn:Ei; [|discriminate].
  cbn. intros [= <-]. cbn.
  split_and!; try apply trim_trim; try (intros s; apply orUndefined_trimmed).
  now apply truthy_nonempty.
Qed.

End LoadedFacts.

(** X19. Every record the loader returns is trimmed: its id and its
    canonical answer have no surrounding white space, and an optional text
    (question, Chinese question, image) is either absent or non-empty and
    trimmed. Scoring a loaded question therefore compares with the canonical
    answer as it stands: an answer is correct exactly when the canonical
    answer is not empty and equals the trimmed (for multiple choice:
    trimmed and upper-cased, against the upper-cased canonical) answer. *)
Theorem loaded_questions_are_trimmed
    (JSON_parse : string -> option Loader.JsValue) (net : Loader.Fetched)
    (qs : list Question) (q : Question) :
  Loader.loadDatasetFromPublicXlsx JSON_parse net = inr qs ->
  q ∈ qs ->
  trim (id q) = id q
  /\ trim (answer q) = answer q
  /\ (forall s, question q = Some s -> s <> "" /\ trim s = s)
  /\ (forall s, chQuestion q = Some s -> s <> "" /\ trim s = s)
  /\ (forall s, image q = Some s -> s <> "" /\ trim s = s)
  /\ (forall s, isCorrect q s = true <->
        answer q <> "" /\
        match questionType q with
        | MultipleChoice => toUpperCase (trim s) = toUpperCase (answer q)
        | FillInTheBlank => trim s = answer q
        end).
Proof.
  intros Hload Hin.
  apply loader_success in Hload as (rows & _ & -> & _).
  apply parseRows_elem in Hin as (row & _ & Hrow).
  destruct (parseRow_trimmed _ _ _ Hrow) as (_ & Hid & Hans & Hq & Hc & Hi).
  split_and!; try assumption.
  intros s. rewrite isCorrect_unfold, Hans.
  destruct (questionType q); rewrite andb_true_iff, bool_decide_eq_true, negb_true_iff.
  - split.
    + intros [Hs E]. split; [|assumption]. intros Ea. rewrite Ea in E.
      cbn in E. apply (proj1 (toUpperCase_empty _)) in E.
      apply (proj1 (trim_empty_iff s)) in E. congruence.
    + intros [Ha E]. split; [|assumption].
      destruct (blank s) eqn:Es; [|reflexivity]. exfalso. apply Ha.
      apply (proj2 (trim_empty_iff s)) in Es. rewrite Es in E. cbn in E. symmetry in E.
      now apply (proj1 (toUpperCase_empty _)) in E.
  - split.
    + intros [Hs E]. split; [|assumption]. intros Ea. rewrite Ea in E.
      apply (proj1 (trim_empty_iff s)) in E. congruence.
    + intros [Ha E]. split; [|assumption].
      destruct (blank s) eqn:Es; [|reflexivity]. exfalso. apply Ha.
      apply (proj2 (trim_empty_iff s)) in Es. congruence.
Qed.

(** The second record of the sample sheet comes from the cells " 2 " and
    " Paris ". *)
Lemma loaded_questions_are_trimmed_witness :
  answer Samples.q2 = "Paris" /\ (isCorrect Samples.q2 " Paris" = true).
Proof.
  destruct (loaded_questions_are_trimmed Samples.JSON_parse
              (Samples.sheetOf Samples.goodRows) [Samples.q1; Samples.q2] Samples.q2
              eq_refl ltac:(right; left)) as (_ & _ & _ & _ & _ & Hscore).
  split; [reflexivity|]. apply Hscore. split; [discriminate|reflexivity].
Defined.

Lemma loader_messages_nonempty (JSON_parse : string -> option Loader.JsValue) net msg :
  Loader.loadDatasetFromPublicXlsx JSON_parse net = inl msg ->
  msg = "" ->
  net = Loader.Rejected ""
  \/ exists st, net = Loader.Resolved {| Loader.ok := true; Loader.status := st;
                                         Loader.body := Loader.Unreadable "" |}.
Proof.
  destruct net as [m|[o st [m|[names sheets]]]]; cbn.
  - intros [= ->] ->. now left.
  - destruct o; cbn; [intros [= ->] ->; right; now exists st|].
    intros [= <-] E. discriminate E.
  - destruct o; cbn; [|intros [= <-] E; discriminate E].
    destruct names as [|name names]; [intros [= <-] E; discriminate E|].
    destruct (JsString.truthy name); cbn; [|intros [= <-] E; discriminate E].
    destruct (sheets !! name) as [rows|]; [|intros [= <-] E; discriminate E].
    destruct (List.length _ =? 0)%nat; [intros [= <-] E; discriminate E|discriminate].
Qed.

(** X20. A failed load leaves the component unloaded: the storage is
    untouched, and "start", "continue", "last result", "submit" and "clear"
    do nothing and ask nothing. The error page is shown with the loader's
    message; only a rejection that carries an empty message (from [fetch],
    or from reading the work book) leaves the loading page instead. *)
Theorem failed_load_disables_handlers
    (JSON_parse : string -> option Loader.JsValue) (net : Loader.Fetched)
    (msg : string) (t : Z) (d : Storage.Store) :
  Loader.loadDatasetFromPublicXlsx JSON_parse net = inl msg ->
  let w := App.mounted (Loader.loadDatasetFromPublicXlsx JSON_parse net)
             {| App.ui := App.initial t; App.disk := d |} in
  App.error (App.ui w) = msg
  /\ App.questions (App.ui w) = None
  /\ App.disk w = d
  /\ (forall t', App.startNew t' w = Some w)
  /\ (forall t', App.continueQuiz t' w = Some w)
  /\ (forall t1 t2, App.goResult t1 t2 w = Some w)
  /\ (forall confirm t1 t2, App.submit confirm t1 t2 w = (w, []))
  /\ (forall confirm, App.clearAnswers confirm w = (w, []))
  /\ (Render.screen (App.ui w) = Render.ErrorScreen
      \/ (Render.screen (App.ui w) = Render.LoadingScreen
          /\ (net = Loader.Rejected ""
              \/ exists st, net = Loader.Resolved
                                    {| Loader.ok := true; Loader.status := st;
                                       Loader.body := Loader.Unreadable "" |}))).
Proof.
  intros Hload w. subst w. rewrite Hload. cbn. unfold Render.screen. cbn.
  split_and!; try reflexivity.
  destruct msg as [|c r]; cbn; [right|now left].
  split; [reflexivity|]. now apply (loader_messages_nonempty JSON_parse net "").
Qed.

(** A sheet without a valid row: the error page, and "start" does
    nothing. *)
Lemma failed_load_disables_handlers_witness :
  Render.screen (App.ui (App.mounted
      (Loader.loadDatasetFromPublicXlsx Samples.JSON_parse (Samples.sheetOf Samples.blankRows))
      {| App.ui := App.initial 0; App.disk := Samples.emptyStore |})) = Render.ErrorScreen
  /\ App.error (App.ui (App.mounted
      (Loader.loadDatasetFromPublicXlsx Samples.JSON_parse (Samples.sheetOf Samples.blankRows))
      {| App.ui := App.initial 0; App.disk := Samples.emptyStore |}))
     = "No questions parsed from dataset.xlsx".
Proof.
  destruct (failed_load_disables_handlers Samples.JSON_parse
              (Samples.sheetOf Samples.blankRows) _ 0 Samples.emptyStore eq_refl)
    as (Herr & _).
  split; [reflexivity | exact Herr].
Defined.

Lemma find_app_skip {A} (p : A -> bool) (pre rest : list A) :
  (forall x, x ∈ pre -> p x = false) ->
  List.find p (pre ++ rest)%list = List.find p rest.
Proof.
  induction pre as [|x pre IH]; intros Hall; [reflexivity|].
  cbn. rewrite (Hall x) by now left.
  apply IH. intros y Hy. apply Hall. now right.
Qed.

(** X21. The sample image of the start page is empty exactly when no
    question has an image. Otherwise it is the image of the first question
    that has one (an image that is not blank): that image as it is when it
    starts with a slash, and with a slash put before it when it does not; so
    it always starts with a slash. *)
Theorem sampleImage_is_rooted (qs : list Question) :
  (Render.sampleImage qs = ""
   <-> forall q, q ∈ qs -> blank (default "" (image q)) = true)
  /\ (Render.sampleImage qs <> "" -> Render.startsWithSlash (Render.sampleImage qs) = true)
  /\ (forall (pre : list Question) hit post img,
        qs = (pre ++ hit :: post)%list ->
        (forall q, q ∈ pre -> blank (default "" (image q)) = true) ->
        image hit = Some img ->
        blank img = false ->
        Render.sampleImage qs = match img with
                                | String "/" _ => img
                                | _ => String "/" img
                                end).
Proof.
  split_and!; [| |intros pre hit post img -> Hpre Hi Hb];
    unfold Render.sampleImage.
  - destruct (List.find _ qs) as [hit|] eqn:Ef.
    + apply find_some in Ef as [Hin Ht]. rewrite truthy_trim, negb_true_iff in Ht.
      destruct (image hit) as [[|c r]|] eqn:Ei; cbn in Ht; try discriminate Ht.
      cbn [JsString.truthy negb].
      split.
      * destruct (Render.startsWithSlash (String c r)); intros E; discriminate E.
      * intros Hall. specialize (Hall hit). rewrite Ei in Hall. cbn in Hall.
        exfalso. apply list_elem_of_In in Hin. specialize (Hall Hin). congruence.
    + split; [|reflexivity]. intros _ q Hin.
      apply list_elem_of_In in Hin.
      pose proof (find_none _ _ Ef q Hin) as Hq. cbn in Hq.
      rewrite truthy_trim, negb_false_iff in Hq. exact Hq.
  - destruct (List.find _ qs) as [hit|] eqn:Ef; [|intros H; now contradiction H].
    apply find_some in Ef as [Hin Ht]. rewrite truthy_trim, negb_true_iff in Ht.
    destruct (image hit) as [[|c r]|] eqn:Ei; cbn in Ht; try discriminate Ht.
    cbn [JsString.truthy negb]. intros _.
    destruct (Render.startsWithSlash (String c r)) eqn:Es; [exact Es|reflexivity].
  - rewrite find_app_skip.
    2:{ intros q Hq. rewrite truthy_trim, negb_false_iff. now apply Hpre. }
    cbn [List.find]. rewrite Hi.
    change (default "" (Some img)) with img.
    rewrite truthy_trim, Hb. cbn [negb]. rewrite Hi.
    destruct img as [|c r]; [discriminate Hb|].
    cbn [JsString.truthy negb Render.startsWithSlash].
    destruct (Ascii.eqb_spec c "/") as [->|Hc]; [reflexivity|].
    destruct c as [[] [] [] [] [] [] [] []]; try reflexivity. now contradiction Hc.
Qed.

(** The first question has no image and the second a blank one: the sample
    image is the third question's, with a slash before it. *)
Example sampleImage_skips_blank_images :
  Render.sampleImage
    [ Samples.q1;
      {| id := "2"; question := None; chQuestion := None; questionType := MultipleChoice;
         options := []; chOptions := []; answer := "a"; image := Some "  " |};
      {| id := "3"; question := None; chQuestion := None; questionType := MultipleChoice;
         options := []; chOptions := []; answer := "a"; image := Some "img/3.png" |};
      {| id := "4"; question := None; chQuestion := None; questionType := MultipleChoice;
         options := []; chOptions := []; answer := "a"; image := Some "/img/4.png" |} ]
  = "/img/3.png".
Proof. reflexivity. Qed.

(** ** The percentage on small datasets *)

(** X23. For every dataset of up to 100 questions the percentage shown is
    the exact one: the Number arithmetic of [percent] gives the Number
    nearest to [round(1000 * correct / total) / 10] with halves rounded
    upwards, a value between 0 and 100 that is 0 for no correct answer and
    100 for all correct. *)
Theorem percent_is_exact_up_to_100 (c t : nat) :
  (1 <= t <= 100)%nat -> (c <= t)%nat ->
  App.percent {| App.correct := c; App.total := t |} = nearest (exactTenths c t) 10
  /\ 0 <= exactTenths c t <= 1000
  /\ (c = 0%nat -> exactTenths c t = 0)
  /\ (c = t -> exactTenths c t = 1000).
Proof.
  intros Ht Hc.
  assert (Hround : JsNumber.Math_round (scaledRatio c t) = JsNumber.ofZ (exactTenths c t)).
  { apply (roundingExactUpTo_sound 100); [vm_compute; reflexivity | lia | lia]. }
  assert (Hpos : 0 < 2 * Z.of_nat t) by lia.
  unfold exactTenths in *. split_and!.
  - unfold App.percent. cbn [App.total App.correct].
    destruct (Nat.eqb_spec t 0); [lia|].
    fold (scaledRatio c t). now rewrite Hround.
  - apply Z.div_pos; lia.
  - assert ((2000 * Z.of_nat c + Z.of_nat t) / (2 * Z.of_nat t) < 1001)
      by (apply Z.div_lt_upper_bound; lia).
    lia.
  - intros ->. apply Z.div_small. lia.
  - intros ->. symmetry. apply Z.div_unique with (r := Z.of_nat t); lia.
Qed.

(** Two of three correct: 66.7 percent. *)
Lemma percent_is_exact_up_to_100_witness :
  App.percent {| App.correct := 2; App.total := 3 |} = nearest 667 10.
Proof.
  exact (proj1 (percent_is_exact_up_to_100 2 3 ltac:(lia) ltac:(lia))).
Defined.
